(** * A five-period discounted-cash-flow generator (IAS.py)

    Shallow embedding of [calculate_dcf], [apply_formatting], [add_charts],
    [generate_spreadsheet] and [generate_pdf], and the properties of the
    valuation engine and of its two report projections.

    Python numbers are kept behind an interface ([PyNumber]): the engine only
    adds, subtracts, multiplies, divides, raises to a small integer power and
    formats.  Structural properties are proved for every implementation of the
    interface, binary64 floats included; properties that need arithmetic laws
    are proved for the exact rational implementation, which is binary64
    without rounding. *)

From Stdlib Require Import ZArith QArith Qabs Qpower List String Ascii Bool Lia.
From Stdlib Require Import DecimalString.
Import ListNotations.

Local Open Scope string_scope.
Local Open Scope list_scope.

(** ** Exceptions and the error monad *)

Inductive PyError : Type :=
| ZeroDivisionError
| IndexError
| OverflowError.

Definition result (A : Type) : Type := (PyError + A)%type.

Abbreviation Ok a := (@inr PyError _ a).
Abbreviation Raise e := (@inl PyError _ e).

Definition bind {A B : Type} (m : result A) (k : A -> result B) : result B :=
  match m with
  | inl e => inl e
  | inr a => k a
  end.

Notation "x <- m ;; k" := (bind m (fun x => k))
  (at level 61, m at next level, right associativity).

Definition raises {A : Type} (m : result A) : Prop := exists e, m = inl e.
Definition returns {A : Type} (m : result A) : Prop := exists a, m = inr a.

(** ** The numeric interface *)

Class PyNumber (num : Type) : Type := {
  (** an [int] operand, converted when it meets a [num] *)
  of_int : Z -> num;
  add : num -> num -> num;
  sub : num -> num -> num;
  mul : num -> num -> num;
  (** [y == 0], the test that makes [x / y] raise *)
  is_zero : num -> bool;
  (** the quotient, for a divisor that is not zero *)
  quotient : num -> num -> num;
  (** [x ** n] for an [int] exponent; it raises on a zero base with a
      negative exponent, and on floats when the power overflows *)
  pow_int : num -> Z -> result num;
  (** [sum(xs)] as a number *)
  sum_of : list num -> num;
  (** [format(x, ',.pf')] when the flag is set, [format(x, '.pf')] otherwise *)
  format_f : bool -> nat -> num -> string
}.

Section Engine.

Context {num : Type} `{PyNumber num}.

(** [x / y] *)
Definition truediv (x y : num) : result num :=
  if is_zero y then Raise ZeroDivisionError else Ok (quotient x y).

(** [xs[i]] for [i >= 0] *)
Definition getitem {A : Type} (xs : list A) (i : nat) : result A :=
  match nth_error xs i with
  | Some x => Ok x
  | None => Raise IndexError
  end.

(** [xs[-1]] *)
Definition getitem_last {A : Type} (xs : list A) : result A :=
  match rev xs with
  | x :: _ => Ok x
  | [] => Raise IndexError
  end.

(** [for i in range(n): s = body i s], stopping at the first exception *)
Fixpoint for_each {S : Type} (idx : list nat) (body : nat -> S -> result S)
    (s : S) : result S :=
  match idx with
  | [] => Ok s
  | i :: rest => s' <- body i s ;; for_each rest body s'
  end.

Definition range (n : nat) : list nat := seq 0 n.

(** the [user_inputs] dictionary *)
Record AssumptionSet : Type := {
  tax_rate : num;
  long_term_growth_rate : num;
  wacc : num;
  share_price : num;
  shares_outstanding : num;
  cash : num;
  debt : num;
  ebit : list num;
  da : list num;
  capex : list num;
  changes_in_nwc : list num
}.

(** the dictionary returned by [calculate_dcf] *)
Record ValuationResult : Type := {
  fcf : list num;
  terminal_value : num;
  present_values : list num;
  present_terminal_value : num;
  enterprise_value : num;
  equity_value : num;
  intrinsic_value_per_share : num;
  market_cap : num;
  intrinsic_value_premium : num;
  intrinsic_value_premium_percentage : num
}.

(** body of the first loop: one period's free cash flow *)
Definition fcf_step (u : AssumptionSet) (i : nat) (acc : list num)
    : result (list num) :=
  e <- getitem (ebit u) i ;;
  let tax_on_ebit := mul (mul e (tax_rate u)) (of_int (-1)) in
  d <- getitem (da u) i ;;
  c <- getitem (capex u) i ;;
  n <- getitem (changes_in_nwc u) i ;;
  Ok (acc ++ [add (add (add (add e tax_on_ebit) d) c) n]).

(** [1 / (1 + wacc) ** k] *)
Definition discount (w : num) (k : Z) : result num :=
  p <- pow_int (add (of_int 1) w) k ;;
  truediv (of_int 1) p.

(** body of the second loop: one period's present value *)
Definition pv_step (w : num) (fcfs : list num) (i : nat) (acc : list num)
    : result (list num) :=
  discount_factor <- discount w (Z.of_nat i + 1) ;;
  f <- getitem fcfs i ;;
  Ok (acc ++ [mul f discount_factor]).

Definition calculate_dcf (user_inputs : AssumptionSet)
    : result ValuationResult :=
  let long_term_growth_rate := long_term_growth_rate user_inputs in
  let wacc := wacc user_inputs in
  let share_price := share_price user_inputs in
  let shares_outstanding := shares_outstanding user_inputs in
  let cash := cash user_inputs in
  let debt := debt user_inputs in
  fcf <- for_each (range 5) (fcf_step user_inputs) [] ;;
  last_fcf <- getitem_last fcf ;;
  terminal_value <-
    truediv (mul last_fcf (add (of_int 1) long_term_growth_rate))
            (sub wacc long_term_growth_rate) ;;
  present_values <- for_each (range 5) (pv_step wacc fcf) [] ;;
  discount_factor_terminal <- discount wacc 5 ;;
  let present_terminal_value := mul terminal_value discount_factor_terminal in
  let enterprise_value := add (sum_of present_values) present_terminal_value in
  let equity_value := sub (add enterprise_value cash) debt in
  intrinsic_value_per_share <- truediv equity_value shares_outstanding ;;
  let market_cap := mul share_price shares_outstanding in
  let intrinsic_value_premium := sub equity_value market_cap in
  intrinsic_value_premium_percentage <-
    truediv intrinsic_value_premium market_cap ;;
  Ok {| fcf := fcf;
        terminal_value := terminal_value;
        present_values := present_values;
        present_terminal_value := present_terminal_value;
        enterprise_value := enterprise_value;
        equity_value := equity_value;
        intrinsic_value_per_share := intrinsic_value_per_share;
        market_cap := market_cap;
        intrinsic_value_premium := intrinsic_value_premium;
        intrinsic_value_premium_percentage :=
          intrinsic_value_premium_percentage |}.

End Engine.

Arguments AssumptionSet num : clear implicits.
Arguments ValuationResult num : clear implicits.

(** ** Exact rational numbers *)

Module Decimal_text.

Definition digit (d : Z) : ascii := ascii_of_nat (48 + Z.to_nat d).

(** the [p] lowest decimal digits of [n], most significant first *)
Fixpoint digits_fixed (p : nat) (n : Z) : list ascii :=
  match p with
  | O => []
  | S p' => digits_fixed p' (n / 10) ++ [digit (n mod 10)]
  end.

Definition digits_of_Z (n : Z) : string :=
  NilZero.string_of_uint (N.to_uint (Z.to_N n)).

(** [ds] holds the digits from the lowest up; [k] digits of the current
    group of three are out already *)
Fixpoint group3 (ds : list ascii) (k : nat) : list ascii :=
  match ds with
  | [] => []
  | d :: rest =>
      if Nat.eqb k 3 then ","%char :: d :: group3 rest 1
      else d :: group3 rest (S k)
  end.

Definition group_thousands (s : string) : string :=
  string_of_list_ascii
    (rev (group3 (rev (list_ascii_of_string s)) 0)).

(** nearest integer, ties to the even one *)
Definition round_half_even (q : Q) : Z :=
  let n := Qnum q in
  let d := Zpos (Qden q) in
  let f := (n / d)%Z in
  let r := (n mod d)%Z in
  match (2 * r ?= d)%Z with
  | Lt => f
  | Gt => (f + 1)%Z
  | Eq => if Z.even f then f else (f + 1)%Z
  end.

(** fixed-point text of [x] with [p] decimals *)
Definition fixed (comma : bool) (p : nat) (x : Q) : string :=
  let unit := (10 ^ Z.of_nat p)%Z in
  let m := round_half_even (Qabs x * inject_Z unit) in
  let whole := digits_of_Z (m / unit) in
  let whole := if comma then group_thousands whole else whole in
  let sign := if (Qnum x <? 0)%Z then "-" else EmptyString in
  let frac :=
    match p with
    | O => EmptyString
    | S _ => ("." ++ string_of_list_ascii (digits_fixed p (m mod unit)))%string
    end in
  (sign ++ whole ++ frac)%string.

End Decimal_text.

#[export] Instance Q_number : PyNumber Q := {
  of_int := inject_Z;
  add := Qplus;
  sub := Qminus;
  mul := Qmult;
  is_zero := fun y => Qeq_bool y 0;
  quotient := Qdiv;
  pow_int := fun x n =>
    if (n <? 0)%Z && Qeq_bool x 0 then Raise ZeroDivisionError
    else Ok (Qpower x n);
  (* starts from the int 0 and adds from the left *)
  sum_of := fun xs => fold_left Qplus xs (inject_Z 0);
  format_f := Decimal_text.fixed
}.

(** ** The worksheet (openpyxl) *)

Section Report.

Context {num : Type} `{PyNumber num}.

Inductive Value : Type :=
| VNone
| VStr (s : string)
| VInt (n : Z)
| VNum (x : num).

Record Font : Type := { bold : bool; color : string }.

Record PatternFill : Type := {
  start_color : string;
  end_color : string;
  fill_type : string
}.

(** the [border_style] of each side, when the side is drawn *)
Record Border : Type := {
  left : option string;
  right : option string;
  top : option string;
  bottom : option string
}.

Record Cell : Type := {
  value : Value;
  number_format : string;
  font : option Font;
  fill : option PatternFill;
  border : Border;
  alignment : option string
}.

Definition no_border : Border :=
  {| left := None; right := None; top := None; bottom := None |}.

(** a cell as the worksheet creates it *)
Definition new_cell (v : Value) : Cell :=
  {| value := v; number_format := "General"; font := None; fill := None;
     border := no_border; alignment := None |}.

Record Reference : Type := {
  min_col : nat;
  min_row : nat;
  max_col : nat;
  max_row_ref : nat
}.

Record LineChart : Type := {
  chart_title : string;
  chart_style : Z;
  y_axis_title : string;
  x_axis_title : string;
  (** the reference given to [add_data], with its [titles_from_data] *)
  data : option (Reference * bool);
  categories : option Reference
}.

(** the cells by row, from row 1 down, and in a row by column, from column
    1 right; a cell that was never created is [None], or is missing from the
    end of its row, or is in a row missing from the end of the sheet *)
Record Worksheet : Type := {
  title : string;
  rows : list (list (option Cell));
  column_widths : list (string * Z);
  charts : list (LineChart * string)
}.

(** [Workbook().active] with its title set *)
Definition new_sheet (t : string) : Worksheet :=
  {| title := t; rows := []; column_widths := []; charts := [] |}.

(** [ws.append(values)]: the next row, one cell per value from column 1 *)
Definition append (ws : Worksheet) (values : list Value) : Worksheet :=
  {| title := title ws;
     rows := rows ws ++ [map (fun v => Some (new_cell v)) values];
     column_widths := column_widths ws;
     charts := charts ws |}.

(** the cell at a row and a column, both counted from 1, if it exists *)
Definition cell_at (ws : Worksheet) (r c : nat) : option Cell :=
  if Nat.leb 1 r && Nat.leb 1 c then
    match nth_error (rows ws) (r - 1) with
    | Some row =>
        match nth_error row (c - 1) with
        | Some cell => cell
        | None => None
        end
    | None => None
    end
  else None.

Definition is_some {A : Type} (o : option A) : bool :=
  match o with
  | Some _ => true
  | None => false
  end.

(** the number of the last row from [r] on that holds a cell, [last] if
    there is none *)
Fixpoint last_filled (rs : list (list (option Cell))) (r last : nat) : nat :=
  match rs with
  | [] => last
  | row :: rest =>
      last_filled rest (S r) (if existsb is_some row then r else last)
  end.

(** [ws.max_row]: the last row that holds a cell, 1 on an empty sheet *)
Definition max_row (ws : Worksheet) : nat := last_filled (rows ws) 1 1.

Definition pad {A : Type} (n : nat) (d : A) (l : list A) : list A :=
  l ++ repeat d (n - List.length l).

Fixpoint map_from {A : Type} (r : nat) (f : nat -> A -> A) (l : list A)
    : list A :=
  match l with
  | [] => []
  | x :: rest => f r x :: map_from (S r) f rest
  end.

(** [f] on a cell that is created first if it is not there *)
Definition on_cell (f : Cell -> Cell) (cell : option Cell) : option Cell :=
  match cell with
  | Some c => Some (f c)
  | None => Some (f (new_cell VNone))
  end.

(** [for row in ws.iter_rows(min_row=lo, max_row=hi, max_col=w):
       for cell in row: cell = f cell]; the iteration creates the cells it
    does not find *)
Definition update_rows (lo hi w : nat) (f : Cell -> Cell) (ws : Worksheet)
    : Worksheet :=
  let touch (r : nat) (row : list (option Cell)) : list (option Cell) :=
    if Nat.leb lo r && Nat.leb r hi then
      let row := pad w None row in
      map (on_cell f) (firstn w row) ++ skipn w row
    else row in
  let rs := if Nat.leb lo hi then pad hi [] (rows ws) else rows ws in
  {| title := title ws;
     rows := map_from 1 touch rs;
     column_widths := column_widths ws;
     charts := charts ws |}.

(** [cell = ws[ref]; cell = f cell] for the cell at row [r], column [c] *)
Definition update_cell (r c : nat) (f : Cell -> Cell) (ws : Worksheet)
    : Worksheet :=
  let touch (i : nat) (row : list (option Cell)) : list (option Cell) :=
    if Nat.eqb i r then
      let row := pad c None row in
      firstn (c - 1) row ++ map (on_cell f) (firstn 1 (skipn (c - 1) row))
        ++ skipn c row
    else row in
  {| title := title ws;
     rows := map_from 1 touch (pad r [] (rows ws));
     column_widths := column_widths ws;
     charts := charts ws |}.

(** [isinstance(cell.value, (int, float))] *)
Definition is_number (v : Value) : bool :=
  match v with
  | VInt _ | VNum _ => true
  | VNone | VStr _ => false
  end.

Definition set_number_format (fmt : string) (c : Cell) : Cell :=
  {| value := value c; number_format := fmt; font := font c;
     fill := fill c; border := border c; alignment := alignment c |}.

Definition set_border (b : Border) (c : Cell) : Cell :=
  {| value := value c; number_format := number_format c; font := font c;
     fill := fill c; border := b; alignment := alignment c |}.

Definition set_header (f : Font) (p : PatternFill) (b : Border) (a : string)
    (c : Cell) : Cell :=
  {| value := value c; number_format := number_format c; font := Some f;
     fill := Some p; border := b; alignment := Some a |}.

(** the number format ["$"#,##0.00], quotes included *)
Definition currency_format : string :=
  String "034" (String "$" (String "034" "#,##0.00")).
Definition percentage_format : string := "0.00%".

(** [get_column_letter]: bijective base 26, A for 1 *)
Fixpoint column_letters (fuel n : nat) : string :=
  match fuel with
  | O => EmptyString
  | S fuel' =>
      if Nat.eqb n 0 then EmptyString
      else
        (column_letters fuel' ((n - 1) / 26)
           ++ String (ascii_of_nat (65 + (n - 1) mod 26)) EmptyString)%string
  end.

Definition get_column_letter (col : nat) : string := column_letters col col.

Definition is_upper (a : ascii) : bool :=
  Nat.leb 65 (nat_of_ascii a) && Nat.leb (nat_of_ascii a) 90.

(** reads a reference such as [B5]: letters give the column, digits the row *)
Fixpoint coordinate_from (s : string) (col row : nat) : nat * nat :=
  match s with
  | EmptyString => (row, col)
  | String a rest =>
      if is_upper a then coordinate_from rest (26 * col + (nat_of_ascii a - 64)) row
      else coordinate_from rest col (10 * row + (nat_of_ascii a - 48))
  end.

(** the row and the column of a cell reference *)
Definition coordinate (ref : string) : nat * nat := coordinate_from ref 0 0.

(** [ws.column_dimensions[letter].width = w] *)
Definition set_width (letter : string) (w : Z) (ws : Worksheet) : Worksheet :=
  {| title := title ws;
     rows := rows ws;
     column_widths :=
       filter (fun kv => negb (String.eqb (fst kv) letter)) (column_widths ws)
         ++ [(letter, w)];
     charts := charts ws |}.

(** [ws.add_chart(chart, anchor)] *)
Definition add_chart (ws : Worksheet) (chart : LineChart) (anchor : string)
    : Worksheet :=
  {| title := title ws;
     rows := rows ws;
     column_widths := column_widths ws;
     charts := charts ws ++ [(chart, anchor)] |}.

Definition apply_formatting (ws : Worksheet) : Worksheet :=
  (* Set column widths *)
  let ws :=
    fold_left (fun ws col => set_width (get_column_letter col) 15 ws)
      (seq 1 12) ws in
  (* Set header styles *)
  let header_font := {| bold := true; color := "FFFFFF" |} in
  let header_fill :=
    {| start_color := "4F81BD"; end_color := "4F81BD";
       fill_type := "solid" |} in
  let header_border :=
    {| left := None; right := None; top := None; bottom := Some "thin" |} in
  let ws :=
    update_rows 1 4 12
      (set_header header_font header_fill header_border "center") ws in
  (* Set currency formatting *)
  let ws :=
    update_rows 5 (max_row ws) 12
      (fun cell =>
         if is_number (value cell)
         then set_number_format currency_format cell else cell) ws in
  (* Set percentage formatting for specific cells *)
  let percentage_cells := ["B5"; "B6"; "B7"] in
  let ws :=
    fold_left
      (fun ws cell_ref =>
         let (r, c) := coordinate cell_ref in
         update_cell r c
           (fun cell =>
              if is_number (value cell)
              then set_number_format percentage_format cell else cell) ws)
      percentage_cells ws in
  (* Add borders to data *)
  let thin_border :=
    {| left := Some "thin"; right := Some "thin"; top := Some "thin";
       bottom := Some "thin" |} in
  update_rows 5 (max_row ws) 12 (set_border thin_border) ws.

Definition add_charts (ws : Worksheet) (dcf_results : ValuationResult num)
    : Worksheet :=
  let chart :=
    {| chart_title := "Unlevered Free Cash Flow (UFCF)";
       chart_style := 13;
       y_axis_title := "Cash Flow ($)";
       x_axis_title := "Year";
       data :=
         Some ({| min_col := 6; min_row := 13; max_col := 10;
                  max_row_ref := 13 |}, true);
       categories :=
         Some {| min_col := 5; min_row := 12; max_col := 10;
                 max_row_ref := 12 |} |} in
  add_chart ws chart "A30".

(** [[f(x) for x in xs]] for an [f] that may raise *)
Fixpoint map_result {A B : Type} (f : A -> result B) (xs : list A)
    : result (list B) :=
  match xs with
  | [] => Ok []
  | x :: rest => y <- f x ;; ys <- map_result f rest ;; Ok (y :: ys)
  end.

(** the value [sum(xs)] puts in a cell: the int [0] of an empty list *)
Definition sum_value (xs : list num) : Value :=
  match xs with
  | [] => VInt 0
  | _ :: _ => VNum (sum_of xs)
  end.

Definition blank : Value := VStr EmptyString.

(** the worksheet that [generate_spreadsheet] saves *)
Definition generate_spreadsheet (user_inputs : AssumptionSet num)
    (dcf_results : ValuationResult num) (company_name : string)
    : result Worksheet :=
  let ws := new_sheet "DCF Model" in
  (* Write headers *)
  let ws := append ws [VStr ("DCF Model for " ++ company_name)%string] in
  let ws := append ws [VStr "All figures in millions unless otherwise stated"] in
  let ws := append ws [] in
  let ws := append ws [blank; VStr "Hist."; VStr "Proj."; VStr "Proj.";
                       VStr "Proj."; VStr "Proj."; VStr "Proj."] in
  let ws := append ws [blank; VStr "Period 0"; VStr "Period 1";
                       VStr "Period 2"; VStr "Period 3"; VStr "Period 4";
                       VStr "Period 5"] in
  let ws := append ws [] in
  let ws := append ws [VStr "Discounted Cash Flow"] in
  let ws := append ws [blank; VStr "Tax rate"; VNum (tax_rate user_inputs)] in
  let ws := append ws [blank; VStr "Long term growth rate";
                       VNum (long_term_growth_rate user_inputs)] in
  let ws := append ws [blank; VStr "WACC"; VNum (wacc user_inputs)] in
  let ws := append ws [blank; VStr "Share price";
                       VNum (share_price user_inputs)] in
  let ws := append ws [blank; VStr "Shares outstanding";
                       VNum (shares_outstanding user_inputs)] in
  let ws := append ws [] in
  let ws := append ws [blank; VStr "Year count"; blank;
                       VInt 1; VInt 2; VInt 3; VInt 4; VInt 5] in
  let ws := append ws ([blank; VStr "EBIT"; blank]
                         ++ map VNum (ebit user_inputs)) in
  let ws :=
    append ws
      ([blank; VStr "Tax on EBIT"; blank]
         ++ map (fun ebit =>
                   VNum (mul (mul ebit (tax_rate user_inputs)) (of_int (-1))))
              (ebit user_inputs)) in
  let ws := append ws ([blank; VStr "+ Depreciation and amortization"; blank]
                         ++ map VNum (da user_inputs)) in
  let ws := append ws ([blank; VStr "- Capital expenditure"; blank]
                         ++ map VNum (capex user_inputs)) in
  let ws :=
    append ws ([blank; VStr "Change in operating working capital"; blank]
                 ++ map VNum (changes_in_nwc user_inputs)) in
  let ws := append ws ([blank; VStr "Free cash flow"; blank]
                         ++ map VNum (fcf dcf_results)) in
  let ws := append ws [] in
  let ws := append ws [blank; VStr "Terminal value"; blank; blank; blank;
                       blank; blank; VNum (terminal_value dcf_results)] in
  let ws := append ws [] in
  discount_factors <-
    map_result (fun i => discount (wacc user_inputs) (Z.of_nat i + 1))
      (range 5) ;;
  let ws := append ws ([blank; VStr "Discount factor"; blank]
                         ++ map VNum discount_factors) in
  let ws :=
    append ws ([blank; VStr "Present value of free cash flows"; blank]
                 ++ map VNum (present_values dcf_results)) in
  let ws := append ws [] in
  let ws := append ws [blank; VStr "Sum of present value of free cash flows";
                       sum_value (present_values dcf_results)] in
  let ws := append ws [blank; VStr "Present value of terminal value";
                       VNum (present_terminal_value dcf_results)] in
  let ws := append ws [blank; VStr "Enterprise value";
                       VNum (enterprise_value dcf_results)] in
  let ws := append ws [] in
  let ws := append ws [blank; VStr "+ Cash"; VNum (cash user_inputs)] in
  let ws := append ws [blank; VStr "- Debt"; VNum (debt user_inputs)] in
  let ws := append ws [blank; VStr "Implied equity value (intrinsic value)";
                       VNum (equity_value dcf_results)] in
  let ws := append ws [] in
  let ws := append ws [blank; VStr "Market capitalization";
                       VNum (market_cap dcf_results)] in
  let ws :=
    append ws [blank; VStr "Intrinsic value premium to market capitalization";
               VNum (intrinsic_value_premium dcf_results)] in
  let ws :=
    append ws [blank; VStr "Intrinsic value premium percentage";
               VNum (intrinsic_value_premium_percentage dcf_results)] in
  (* Apply professional formatting *)
  Ok (apply_formatting ws).

(** ** The report document (reportlab) *)

(** [f"{x:.pf}"] scaled by 100 with a percent sign: [f"{x:.p%}"] *)
Definition format_percent (p : nat) (x : num) : string :=
  (format_f false p (mul x (of_int 100)) ++ "%")%string.

Definition format_currency (value : num) : string :=
  ("$" ++ format_f true 2 value)%string.

Definition format_percentage (value : num) : string :=
  format_percent 2 value.

(** the markdown that [display_colored_value] hands to the page *)
Definition display_colored_value (label : string) (value : num)
    (color : string) (is_percentage : bool) : string :=
  let formatted_value :=
    if is_percentage then format_percentage value
    else format_currency value in
  ("**" ++ label ++ ":** <span style='color: " ++ color ++ "'>"
     ++ formatted_value ++ "</span>")%string.

Inductive Flowable : Type :=
| Paragraph (text : string) (style : string)
| Spacer (width height : Z)
| Table (rows : list (list string)).

(** the flowables that [generate_pdf] builds the document from; colours,
    fonts and column widths are left out *)
Definition generate_pdf (user_inputs : AssumptionSet num)
    (dcf_results : ValuationResult num) (company_name : string)
    : list Flowable :=
  let assumptions_data :=
    [ ["Key Assumptions"; "Value"];
      ["Tax Rate"; format_percent 1 (tax_rate user_inputs)];
      ["WACC"; format_percent 1 (wacc user_inputs)];
      ["Long Term Growth Rate";
       format_percent 1 (long_term_growth_rate user_inputs)];
      ["Share Price";
       ("$" ++ format_f false 2 (share_price user_inputs))%string];
      ["Shares Outstanding";
       format_f true 0 (shares_outstanding user_inputs)] ] in
  let results_data :=
    [ ["DCF Results"; "Value"];
      ["Enterprise Value";
       ("$" ++ format_f true 2 (enterprise_value dcf_results))%string];
      ["Equity Value";
       ("$" ++ format_f true 2 (equity_value dcf_results))%string];
      ["Intrinsic Value per Share";
       ("$" ++ format_f true 2 (intrinsic_value_per_share dcf_results))%string];
      ["Market Cap";
       ("$" ++ format_f true 2 (market_cap dcf_results))%string];
      ["Intrinsic Value Premium";
       ("$" ++ format_f true 2 (intrinsic_value_premium dcf_results))%string];
      ["Premium Percentage";
       format_percent 1 (intrinsic_value_premium_percentage dcf_results)] ] in
  [ Paragraph ("DCF Analysis Report for " ++ company_name)%string "CustomTitle";
    Spacer 1 12;
    Table assumptions_data;
    Spacer 1 20;
    Table results_data;
    Spacer 1 20;
    Paragraph "Disclaimer: This report is for educational purposes only."
      "Footer" ].

End Report.

Arguments Value num : clear implicits.
Arguments Cell num : clear implicits.
Arguments Worksheet num : clear implicits.

(** ** Inputs used below *)

(** the defaults of the input form *)
Definition reference_inputs : AssumptionSet Q := {|
  tax_rate := 21 # 100;
  long_term_growth_rate := 3 # 100;
  wacc := 8 # 100;
  share_price := 3;
  shares_outstanding := 1000;
  cash := 1242 # 10;
  debt := 500;
  ebit := [270; 0; 0; 0; 0];
  da := [20; 0; 0; 0; 0];
  capex := [-30; 0; 0; 0; 0];
  changes_in_nwc := [-28 # 10; 0; 0; 0; 0]
|}.

(** a discount rate of minus one: [1 + wacc] is zero *)
Definition total_loss_inputs : AssumptionSet Q := {|
  tax_rate := 21 # 100;
  long_term_growth_rate := 3 # 100;
  wacc := -1;
  share_price := 3;
  shares_outstanding := 1000;
  cash := 1242 # 10;
  debt := 500;
  ebit := [270; 0; 0; 0; 0];
  da := [20; 0; 0; 0; 0];
  capex := [-30; 0; 0; 0; 0];
  changes_in_nwc := [-28 # 10; 0; 0; 0; 0]
|}.

(** the defaults with two more periods entered *)
Definition long_inputs : AssumptionSet Q := {|
  tax_rate := 21 # 100;
  long_term_growth_rate := 3 # 100;
  wacc := 8 # 100;
  share_price := 3;
  shares_outstanding := 1000;
  cash := 1242 # 10;
  debt := 500;
  ebit := [270; 280; 290; 300; 310; 320; 330];
  da := [20; 21; 22; 23; 24; 25];
  capex := [-30; -31; -32; -33; -34; -35; -36];
  changes_in_nwc := [-28 # 10; -1; -1; -1; -1; -7]
|}.

(** the same with other values after the fifth period *)
Definition long_inputs' : AssumptionSet Q := {|
  tax_rate := 21 # 100;
  long_term_growth_rate := 3 # 100;
  wacc := 8 # 100;
  share_price := 3;
  shares_outstanding := 1000;
  cash := 1242 # 10;
  debt := 500;
  ebit := [270; 280; 290; 300; 310];
  da := [20; 21; 22; 23; 24; 1000; 2000; 3000];
  capex := [-30; -31; -32; -33; -34; 99];
  changes_in_nwc := [-28 # 10; -1; -1; -1; -1]
|}.

(** ** Statements about the engine *)

Section Engine_statements.

Context {num : Type} `{PyNumber num}.

(** the free cash flow of period [i] as the first loop computes it *)
Definition fcf_at (u : AssumptionSet num) (i : nat) : result num :=
  e <- getitem (ebit u) i ;;
  d <- getitem (da u) i ;;
  c <- getitem (capex u) i ;;
  n <- getitem (changes_in_nwc u) i ;;
  Ok (add (add (add (add e (mul (mul e (tax_rate u)) (of_int (-1)))) d) c) n).

(** the present value of period [i] as the second loop computes it *)
Definition pv_at (w : num) (fcfs : list num) (i : nat) : result num :=
  discount_factor <- discount w (Z.of_nat i + 1) ;;
  f <- getitem fcfs i ;;
  Ok (mul f discount_factor).

(** [u] with another share price *)
Definition with_share_price (u : AssumptionSet num) (p : num)
    : AssumptionSet num :=
  {| tax_rate := tax_rate u;
     long_term_growth_rate := long_term_growth_rate u;
     wacc := wacc u;
     share_price := p;
     shares_outstanding := shares_outstanding u;
     cash := cash u;
     debt := debt u;
     ebit := ebit u;
     da := da u;
     capex := capex u;
     changes_in_nwc := changes_in_nwc u |}.

(** the fields that the share price does not enter *)
Definition same_valuation (r1 r2 : ValuationResult num) : Prop :=
  fcf r1 = fcf r2 /\
  terminal_value r1 = terminal_value r2 /\
  present_values r1 = present_values r2 /\
  present_terminal_value r1 = present_terminal_value r2 /\
  enterprise_value r1 = enterprise_value r2 /\
  equity_value r1 = equity_value r2 /\
  intrinsic_value_per_share r1 = intrinsic_value_per_share r2.

(** both calls return, and return the same valuation *)
Definition share_price_blind (u : AssumptionSet num) (p1 p2 : num) : Prop :=
  exists r1 r2,
    calculate_dcf (with_share_price u p1) = Ok r1 /\
    calculate_dcf (with_share_price u p2) = Ok r2 /\
    same_valuation r1 r2.

(** the two inputs agree on the scalars and on the first five periods *)
Definition same_five_periods (u u' : AssumptionSet num) : Prop :=
  tax_rate u = tax_rate u' /\
  long_term_growth_rate u = long_term_growth_rate u' /\
  wacc u = wacc u' /\
  share_price u = share_price u' /\
  shares_outstanding u = shares_outstanding u' /\
  cash u = cash u' /\
  debt u = debt u' /\
  firstn 5 (ebit u) = firstn 5 (ebit u') /\
  firstn 5 (da u) = firstn 5 (da u') /\
  firstn 5 (capex u) = firstn 5 (capex u') /\
  firstn 5 (changes_in_nwc u) = firstn 5 (changes_in_nwc u').

(** every projection has its five periods *)
Definition five_periods (u : AssumptionSet num) : Prop :=
  (5 <= List.length (ebit u))%nat /\
  (5 <= List.length (da u))%nat /\
  (5 <= List.length (capex u))%nat /\
  (5 <= List.length (changes_in_nwc u))%nat.

End Engine_statements.

(** the three singularities of the specification *)
Definition listed_singularity (u : AssumptionSet Q) : Prop :=
  wacc u == long_term_growth_rate u \/
  shares_outstanding u == 0 \/
  share_price u * shares_outstanding u == 0.

(** the divisors that the code meets *)
Definition singular (u : AssumptionSet Q) : Prop :=
  wacc u == long_term_growth_rate u \/
  1 + wacc u == 0 \/
  shares_outstanding u == 0 \/
  share_price u * shares_outstanding u == 0.

(** [singular], as the tests the code runs *)
Definition singular_b (u : AssumptionSet Q) : bool :=
  Qeq_bool (wacc u - long_term_growth_rate u) 0
  || Qeq_bool (1 + wacc u) 0
  || Qeq_bool (shares_outstanding u) 0
  || Qeq_bool (share_price u * shares_outstanding u) 0.

(** ** Statements about the report *)

Section Report_statements.

Context {num : Type} `{PyNumber num}.

Definition has_format (fmt : string) (c : Cell num) : bool :=
  String.eqb (number_format c) fmt.

(** the cells of the sheet *)
Definition cells (ws : Worksheet num) : list (Cell num) :=
  flat_map
    (flat_map (fun cell => match cell with Some c => [c] | None => [] end))
    (rows ws).

(** every cell that holds a number has the format [fmt] *)
Definition numbers_formatted (fmt : string) (ws : Worksheet num) : bool :=
  forallb (fun c => implb (is_number (value c)) (has_format fmt c))
    (cells ws).

(** some cell has the format [fmt] *)
Definition uses_format (fmt : string) (ws : Worksheet num) : bool :=
  existsb (has_format fmt) (cells ws).

(** the value and the number format of the cell at a reference *)
Definition value_and_format (ws : Worksheet num) (ref : string)
    : option (Value num * string) :=
  let (r, c) := coordinate ref in
  option_map (fun cell => (value cell, number_format cell)) (cell_at ws r c).

(** the values in the cells of a reference, row by row *)
Definition values_in (ws : Worksheet num) (ref : Reference)
    : list (list (option (Value num))) :=
  map (fun r =>
         map (fun c => option_map value (cell_at ws r c))
           (seq (min_col ref) (S (max_col ref) - min_col ref)))
    (seq (min_row ref) (S (max_row_ref ref) - min_row ref)).

(** the rows of the tables of a document *)
Definition table_rows (doc : list Flowable) : list (list string) :=
  flat_map (fun f => match f with Table rows => rows | _ => [] end) doc.

End Report_statements.

(** ** Reading a sheet and a document *)

Section Report_readers.

Context {num : Type} `{PyNumber num}.

(** the number in a cell, if the cell holds a float *)
Definition number_at (ws : Worksheet num) (r c : nat) : option num :=
  match cell_at ws r c with
  | Some cell =>
      match value cell with
      | VNum x => Some x
      | _ => None
      end
  | None => None
  end.

(** what a cell holds, an absent cell holding nothing *)
Definition value_at (ws : Worksheet num) (r c : nat) : Value num :=
  match cell_at ws r c with
  | Some cell => value cell
  | None => VNone
  end.

(** the values of columns A and B, from row 1 to the last row *)
Definition row_labels (ws : Worksheet num)
    : list (Value num * Value num) :=
  map (fun r => (value_at ws r 1, value_at ws r 2)) (seq 1 (max_row ws)).

(** some projection lacks one of the five periods *)
Definition short_projection (u : AssumptionSet num) : Prop :=
  (List.length (ebit u) < 5)%nat \/
  (List.length (da u) < 5)%nat \/
  (List.length (capex u) < 5)%nat \/
  (List.length (changes_in_nwc u) < 5)%nat.

End Report_readers.

(** the defaults without the last period of depreciation *)
Definition short_inputs : AssumptionSet Q := {|
  tax_rate := 21 # 100;
  long_term_growth_rate := 3 # 100;
  wacc := 3 # 100;
  share_price := 3;
  shares_outstanding := 0;
  cash := 1242 # 10;
  debt := 500;
  ebit := [270; 0; 0; 0; 0];
  da := [20; 0; 0; 0];
  capex := [-30; 0; 0; 0; 0];
  changes_in_nwc := [-28 # 10; 0; 0; 0; 0]
|}.

(** the values that the rows of the sheet start with, in columns A and B *)
Definition sheet_labels {num : Type} `{PyNumber num} (company_name : string)
    : list (Value num * Value num) :=
  [ ((VStr ("DCF Model for " ++ company_name)%string), VNone);
    (VStr "All figures in millions unless otherwise stated", VNone);
    (VNone, VNone);
    (blank, VStr "Hist.");
    (blank, VStr "Period 0");
    (VNone, VNone);
    (VStr "Discounted Cash Flow", VNone);
    (blank, VStr "Tax rate");
    (blank, VStr "Long term growth rate");
    (blank, VStr "WACC");
    (blank, VStr "Share price");
    (blank, VStr "Shares outstanding");
    (VNone, VNone);
    (blank, VStr "Year count");
    (blank, VStr "EBIT");
    (blank, VStr "Tax on EBIT");
    (blank, VStr "+ Depreciation and amortization");
    (blank, VStr "- Capital expenditure");
    (blank, VStr "Change in operating working capital");
    (blank, VStr "Free cash flow");
    (VNone, VNone);
    (blank, VStr "Terminal value");
    (VNone, VNone);
    (blank, VStr "Discount factor");
    (blank, VStr "Present value of free cash flows");
    (VNone, VNone);
    (blank, VStr "Sum of present value of free cash flows");
    (blank, VStr "Present value of terminal value");
    (blank, VStr "Enterprise value");
    (VNone, VNone);
    (blank, VStr "+ Cash");
    (blank, VStr "- Debt");
    (blank, VStr "Implied equity value (intrinsic value)");
    (VNone, VNone);
    (blank, VStr "Market capitalization");
    (blank, VStr "Intrinsic value premium to market capitalization");
    (blank, VStr "Intrinsic value premium percentage") ].

(** a business with no operating figures *)
Definition idle_inputs : AssumptionSet Q := {|
  tax_rate := 21 # 100;
  long_term_growth_rate := 3 # 100;
  wacc := 8 # 100;
  share_price := 3;
  shares_outstanding := 1000;
  cash := 1242 # 10;
  debt := 500;
  ebit := [0; 0; 0; 0; 0];
  da := [0; 0; 0; 0; 0];
  capex := [0; 0; 0; 0; 0];
  changes_in_nwc := [0; 0; 0; 0; 0]
|}.

(** the same inputs with every amount of money in another unit, [k] units
    of the new one to one of the old: rates and the share count stay *)
Definition in_unit (k : Q) (u : AssumptionSet Q) : AssumptionSet Q := {|
  tax_rate := tax_rate u;
  long_term_growth_rate := long_term_growth_rate u;
  wacc := wacc u;
  share_price := k * share_price u;
  shares_outstanding := shares_outstanding u;
  cash := k * cash u;
  debt := k * debt u;
  ebit := map (Qmult k) (ebit u);
  da := map (Qmult k) (da u);
  capex := map (Qmult k) (capex u);
  changes_in_nwc := map (Qmult k) (changes_in_nwc u)
|}.

(** [ys] is [xs] in the other unit *)
Definition scaled (k : Q) (xs ys : list Q) : Prop :=
  Forall2 (fun x y => y == k * x) xs ys.

(** ** What [apply_formatting] does to a cell *)

Section Formatting_steps.

Context {num : Type} `{PyNumber num}.

(** the header loop *)
Definition header_step : Cell num -> Cell num :=
  set_header {| bold := true; color := "FFFFFF" |}
    {| start_color := "4F81BD"; end_color := "4F81BD";
       fill_type := "solid" |}
    {| left := None; right := None; top := None; bottom := Some "thin" |}
    "center".

(** the currency loop *)
Definition currency_step (cell : Cell num) : Cell num :=
  if is_number (value cell) then set_number_format currency_format cell
  else cell.

(** the percentage loop *)
Definition percentage_step (cell : Cell num) : Cell num :=
  if is_number (value cell) then set_number_format percentage_format cell
  else cell.

Definition thin_border : Border :=
  {| left := Some "thin"; right := Some "thin"; top := Some "thin";
     bottom := Some "thin" |}.

(** the border loop *)
Definition border_step : Cell num -> Cell num := set_border thin_border.

(** the row holds a cell *)
Definition row_filled (row : list (option (Cell num))) : bool :=
  existsb is_some row.

(** what a cell holds, a missing one holding nothing *)
Definition held (cell : option (Cell num)) : Value num :=
  match cell with
  | Some c => value c
  | None => VNone
  end.

(** the number format of a cell, a missing one having the format of a new
    cell *)
Definition format_of (cell : option (Cell num)) : string :=
  match cell with
  | Some c => number_format c
  | None => "General"
  end.

(** [m] is the number of the last row that holds a cell, or 1 *)
Definition last_row_is (ws : Worksheet num) (m : nat) : Prop :=
  (1 <= m)%nat /\
  (forall r c, (m < r)%nat -> (1 <= c)%nat -> cell_at ws r c = None) /\
  (m = 1%nat \/ exists c, (1 <= c)%nat /\ cell_at ws m c <> None).

(** the width set for a column letter, if one was set *)
Definition width_of (ws : Worksheet num) (letter : string) : option Z :=
  option_map snd
    (find (fun kv => String.eqb (fst kv) letter) (column_widths ws)).

End Formatting_steps.

(** a sheet with numbers where [apply_formatting] looks for the rates, and
    one beyond column L *)
Definition rates_in_column_B : Worksheet Q :=
  append
    (append
       (append
          (append
             (append (new_sheet "Rates") [VStr "Model"])
             [])
          [])
       [])
    [VStr "Tax rate"; VNum (21 # 100); VNum 5; blank; blank; blank; blank;
     blank; blank; blank; blank; blank; VNum 7].

(** ** The page (streamlit) *)

Section Page.

Context {num : Type} `{PyNumber num}.

(** [value >= 0] *)
Variable ge_zero : num -> bool.

(** the text of an exception, [str(e)] *)
Variable str_of_error : PyError -> string.

(** what a download button hands out *)
Inductive Payload : Type :=
| Excel_file (ws : Worksheet num)
| Pdf_file (doc : list Flowable).

(** the calls on [st] that draw the page, in the order they are made *)
Inductive Call : Type :=
| st_expander (label : string) (expanded : bool)
| st_subheader (text : string)
| st_container
| st_columns (n : nat)
| st_markdown (text : string)
| st_download_button (label : string) (data : Payload) (file_name : string)
    (mime : string)
| st_error (text : string).

(** [s.replace(' ', '_')] *)
Fixpoint replace_spaces (s : string) : string :=
  match s with
  | EmptyString => EmptyString
  | String a rest =>
      String (if Ascii.eqb a " " then "_"%char else a) (replace_spaces rest)
  end.

(** the [except] branch of the button *)
Definition report_error (e : PyError) : list Call :=
  [st_error ("Error calculating DCF: " ++ str_of_error e)%string].

(** what pressing the button Calculate DCF draws: the body of the [try],
    and the [except] branch from the call that raised on *)
Definition calculate_pressed (user_inputs : AssumptionSet num)
    (company_name : string) : list Call :=
  match calculate_dcf user_inputs with
  | inl e => report_error e
  | inr dcf_results =>
      let premium_color :=
        if ge_zero (intrinsic_value_premium dcf_results)
        then "green" else "red" in
      [ st_expander "DCF Results" true;
        st_subheader "DCF Results";
        st_container;
        st_columns 3;
        st_markdown
          (display_colored_value "Enterprise Value"
             (enterprise_value dcf_results) "green" false);
        st_markdown
          (display_colored_value "Equity Value"
             (equity_value dcf_results) "green" false);
        st_markdown
          (display_colored_value "Intrinsic Value per Share"
             (intrinsic_value_per_share dcf_results) "green" false);
        st_markdown
          (display_colored_value "Market Cap"
             (market_cap dcf_results) "blue" false);
        st_markdown
          (display_colored_value "Intrinsic Value Premium"
             (intrinsic_value_premium dcf_results) premium_color false);
        st_markdown
          (display_colored_value "Intrinsic Value Premium %"
             (intrinsic_value_premium_percentage dcf_results)
             premium_color true);
        st_subheader "Download Reports";
        st_columns 2 ]
      ++
      match generate_spreadsheet user_inputs dcf_results company_name with
      | inl e => report_error e
      | inr excel_file =>
          [ st_download_button "Download Excel File" (Excel_file excel_file)
              ("dcf_analysis_" ++ replace_spaces company_name ++ ".xlsx")
              "application/vnd.openxmlformats-officedocument.spreadsheetml.sheet";
            st_download_button "Download PDF Report"
              (Pdf_file (generate_pdf user_inputs dcf_results company_name))
              ("dcf_analysis_" ++ replace_spaces company_name ++ ".pdf")
              "application/pdf" ]
      end
  end.


(** the file names of the download buttons of a page *)
Definition download_names (page : list Call) : list string :=
  flat_map
    (fun c => match c with
              | st_download_button _ _ name _ => [name]
              | _ => []
              end) page.

(** the character occurs in the string *)
Fixpoint occurs (a : ascii) (s : string) : bool :=
  match s with
  | EmptyString => false
  | String b rest => Ascii.eqb a b || occurs a rest
  end.

End Page.

(** * Properties *)

(** ** The error monad and the loops *)

Lemma bind_Ok {A B : Type} (m : result A) (k : A -> result B) (b : B) :
  bind m k = Ok b -> exists a, m = Ok a /\ k a = Ok b.
Proof.
  destruct m as [e | a]; simpl; intros E; [discriminate | eauto].
Qed.

Lemma raises_not_returns {A : Type} (m : result A) : raises m -> ~ returns m.
Proof.
  intros [e He] [a Ha]. rewrite He in Ha. discriminate.
Qed.

Ltac bind_inv H :=
  let a := fresh "a" in
  let E := fresh "E" in
  apply bind_Ok in H; destruct H as (a & E & H).

Section Loops.

Context {A B : Type}.

Lemma map_result_length (f : A -> result B) (xs : list A) (ys : list B) :
  map_result f xs = Ok ys -> List.length ys = List.length xs.
Proof.
  revert ys; induction xs as [| x xs IH]; simpl; intros ys E.
  - inversion E; reflexivity.
  - bind_inv E. bind_inv E. inversion E; subst; simpl.
    f_equal; apply IH; assumption.
Qed.

Lemma map_result_nth (f : A -> result B) (xs : list A) (ys : list B) :
  map_result f xs = Ok ys ->
  forall i x, nth_error xs i = Some x ->
  exists y, f x = Ok y /\ nth_error ys i = Some y.
Proof.
  revert ys; induction xs as [| x xs IH]; simpl; intros ys E i x' Hi.
  - destruct i; discriminate.
  - bind_inv E. bind_inv E. inversion E; subst.
    destruct i as [| i]; simpl in *.
    + inversion Hi; subst; eauto.
    + eapply IH; eauto.
Qed.

Lemma map_result_ext (f g : A -> result B) (xs : list A) :
  (forall x, In x xs -> f x = g x) -> map_result f xs = map_result g xs.
Proof.
  induction xs as [| x xs IH]; simpl; intros E; [reflexivity |].
  rewrite (E x) by auto. rewrite IH by auto. reflexivity.
Qed.

Lemma map_result_total (f : A -> result B) (xs : list A) :
  (forall x, In x xs -> returns (f x)) -> returns (map_result f xs).
Proof.
  induction xs as [| x xs IH]; simpl; intros E.
  - eexists; reflexivity.
  - destruct (E x) as [y Hy]; [auto |].
    destruct IH as [ys Hys]; [auto |].
    rewrite Hy, Hys; simpl. eexists; reflexivity.
Qed.

End Loops.

Lemma getitem_some {A : Type} (xs : list A) (i : nat) (x : A) :
  getitem xs i = Ok x <-> nth_error xs i = Some x.
Proof.
  unfold getitem; destruct (nth_error xs i); split; intros E;
    inversion E; reflexivity.
Qed.

Lemma getitem_firstn {A : Type} (xs : list A) (n i : nat) :
  (i < n)%nat -> getitem (firstn n xs) i = getitem xs i.
Proof.
  intros Hi; unfold getitem. rewrite nth_error_firstn.
  destruct (Nat.ltb_spec i n); [reflexivity | lia].
Qed.

Lemma getitem_in_range {A : Type} (xs : list A) (i : nat) :
  (i < List.length xs)%nat -> returns (getitem xs i).
Proof.
  intros Hi; unfold getitem.
  destruct (nth_error xs i) eqn:E; [eexists; reflexivity |].
  apply nth_error_None in E; lia.
Qed.

Lemma getitem_last_nth {A : Type} (xs : list A) (x : A) :
  getitem_last xs = Ok x ->
  nth_error xs (List.length xs - 1) = Some x.
Proof.
  unfold getitem_last; intros E.
  destruct (rev xs) as [| y t] eqn:R; [discriminate |].
  inversion E; subst y.
  apply (f_equal (@rev A)) in R; rewrite rev_involutive in R; simpl in R.
  subst xs. rewrite length_app; simpl.
  replace (List.length (rev t) + 1 - 1)%nat with (List.length (rev t)) by lia.
  rewrite nth_error_app2 by lia. rewrite Nat.sub_diag; reflexivity.
Qed.

Section Engine_facts.

Context {num : Type} `{PyNumber num}.

(** the first loop appends [fcf_at] of each index *)
Lemma fcf_loop (u : AssumptionSet num) (idx : list nat) (acc : list num) :
  for_each idx (fcf_step u) acc =
  (l <- map_result (fcf_at u) idx ;; Ok (acc ++ l)).
Proof.
  revert acc; induction idx as [| i idx IH]; intros acc; simpl.
  - rewrite app_nil_r; reflexivity.
  - unfold fcf_step at 1, fcf_at at 1.
    destruct (getitem (ebit u) i); simpl; [reflexivity |].
    destruct (getitem (da u) i); simpl; [reflexivity |].
    destruct (getitem (capex u) i); simpl; [reflexivity |].
    destruct (getitem (changes_in_nwc u) i); simpl; [reflexivity |].
    rewrite IH.
    destruct (map_result (fcf_at u) idx); simpl; [reflexivity |].
    rewrite <- app_assoc; reflexivity.
Qed.

(** the second loop appends [pv_at] of each index *)
Lemma pv_loop (w : num) (fcfs : list num) (idx : list nat) (acc : list num) :
  for_each idx (pv_step w fcfs) acc =
  (l <- map_result (pv_at w fcfs) idx ;; Ok (acc ++ l)).
Proof.
  revert acc; induction idx as [| i idx IH]; intros acc; simpl.
  - rewrite app_nil_r; reflexivity.
  - unfold pv_step at 1, pv_at at 1.
    destruct (discount w (Z.of_nat i + 1)); simpl; [reflexivity |].
    destruct (getitem fcfs i); simpl; [reflexivity |].
    rewrite IH.
    destruct (map_result (pv_at w fcfs) idx); simpl; [reflexivity |].
    rewrite <- app_assoc; reflexivity.
Qed.

(** [calculate_dcf] with its loops read as maps over the period indices *)
Lemma calculate_dcf_unfold (u : AssumptionSet num) :
  calculate_dcf u =
  (fcfs <- map_result (fcf_at u) (range 5) ;;
   last_fcf <- getitem_last fcfs ;;
   tv <- truediv (mul last_fcf (add (of_int 1) (long_term_growth_rate u)))
           (sub (wacc u) (long_term_growth_rate u)) ;;
   pvs <- map_result (pv_at (wacc u) fcfs) (range 5) ;;
   dft <- discount (wacc u) 5 ;;
   let ptv := mul tv dft in
   let ev := add (sum_of pvs) ptv in
   let eqv := sub (add ev (cash u)) (debt u) in
   ivps <- truediv eqv (shares_outstanding u) ;;
   let mc := mul (share_price u) (shares_outstanding u) in
   let prem := sub eqv mc in
   pct <- truediv prem mc ;;
   Ok {| fcf := fcfs;
         terminal_value := tv;
         present_values := pvs;
         present_terminal_value := ptv;
         enterprise_value := ev;
         equity_value := eqv;
         intrinsic_value_per_share := ivps;
         market_cap := mc;
         intrinsic_value_premium := prem;
         intrinsic_value_premium_percentage := pct |}).
Proof.
  unfold calculate_dcf. rewrite fcf_loop.
  destruct (map_result (fcf_at u) (range 5)) as [e | fcfs]; cbn [bind app];
    [reflexivity |].
  destruct (getitem_last fcfs); cbn [bind]; [reflexivity |].
  destruct (truediv _ _); cbn [bind]; [reflexivity |].
  rewrite pv_loop.
  destruct (map_result (pv_at (wacc u) fcfs) (range 5)); reflexivity.
Qed.

End Engine_facts.

Section Engine_results.

Context {num : Type} `{PyNumber num}.

(** what a returned result is made of *)
Lemma calculate_dcf_Ok (u : AssumptionSet num) (r : ValuationResult num) :
  calculate_dcf u = Ok r ->
  exists last_fcf dft,
    map_result (fcf_at u) (range 5) = Ok (fcf r) /\
    getitem_last (fcf r) = Ok last_fcf /\
    truediv (mul last_fcf (add (of_int 1) (long_term_growth_rate u)))
      (sub (wacc u) (long_term_growth_rate u)) = Ok (terminal_value r) /\
    map_result (pv_at (wacc u) (fcf r)) (range 5) = Ok (present_values r) /\
    discount (wacc u) 5 = Ok dft /\
    present_terminal_value r = mul (terminal_value r) dft /\
    enterprise_value r =
      add (sum_of (present_values r)) (present_terminal_value r) /\
    equity_value r = sub (add (enterprise_value r) (cash u)) (debt u) /\
    truediv (equity_value r) (shares_outstanding u) =
      Ok (intrinsic_value_per_share r) /\
    market_cap r = mul (share_price u) (shares_outstanding u) /\
    intrinsic_value_premium r = sub (equity_value r) (market_cap r) /\
    truediv (intrinsic_value_premium r) (market_cap r) =
      Ok (intrinsic_value_premium_percentage r).
Proof.
  rewrite calculate_dcf_unfold; intros E.
  bind_inv E. bind_inv E. bind_inv E. bind_inv E. bind_inv E.
  cbv zeta in E. bind_inv E. bind_inv E.
  inversion E; subst r; clear E; cbn.
  eexists; eexists; repeat (split; [eassumption || reflexivity |]).
  assumption.
Qed.

Lemma range_nth (n i : nat) : (i < n)%nat -> nth_error (range n) i = Some i.
Proof.
  intros Hi; unfold range. rewrite nth_error_seq.
  destruct (Nat.ltb_spec i n); [reflexivity | lia].
Qed.

Lemma fcf_has_five (u : AssumptionSet num) (r : ValuationResult num) :
  calculate_dcf u = Ok r -> List.length (fcf r) = 5%nat.
Proof.
  intros E; apply calculate_dcf_Ok in E.
  destruct E as (l & d & E & _).
  apply map_result_length in E; exact E.
Qed.

Lemma truediv_Ok (x y q : num) :
  truediv x y = Ok q -> is_zero y = false /\ q = quotient x y.
Proof.
  unfold truediv; destruct (is_zero y); intros E; inversion E; auto.
Qed.

End Engine_results.

(** ** The valuation engine, for every number implementation *)

Section Engine_claims.

Context {num : Type} `{PyNumber num}.

(** C3. The terminal value of a returned result is the Gordon-growth
    perpetuity on the fifth free cash flow: the divisor [wacc - g] is not
    zero, and [terminal_value = fcf[4] * (1 + g) / (wacc - g)] with
    [g = long_term_growth_rate]. *)
Theorem terminal_value_gordon_growth
    (u : AssumptionSet num) (r : ValuationResult num) :
  calculate_dcf u = Ok r ->
  exists fcf4,
    nth_error (fcf r) 4 = Some fcf4 /\
    is_zero (sub (wacc u) (long_term_growth_rate u)) = false /\
    terminal_value r =
      quotient (mul fcf4 (add (of_int 1) (long_term_growth_rate u)))
        (sub (wacc u) (long_term_growth_rate u)).
Proof.
  intros E. pose proof (fcf_has_five u r E) as L.
  apply calculate_dcf_Ok in E.
  destruct E as (last_fcf & dft & _ & Hlast & Htv & _).
  apply getitem_last_nth in Hlast. rewrite L in Hlast; simpl in Hlast.
  apply truediv_Ok in Htv. destruct Htv as [Hz Htv].
  exists last_fcf; auto.
Qed.

(** C5. In a returned result the enterprise value is the sum of the present
    values plus the present terminal value, the equity value is the
    enterprise value plus cash minus debt, and the premium percentage is the
    premium divided by the market capitalisation; each holds exactly, hence
    within any tolerance. *)
Theorem equity_bridge_exact
    (u : AssumptionSet num) (r : ValuationResult num) :
  calculate_dcf u = Ok r ->
  enterprise_value r =
    add (sum_of (present_values r)) (present_terminal_value r) /\
  equity_value r = sub (add (enterprise_value r) (cash u)) (debt u) /\
  is_zero (market_cap r) = false /\
  intrinsic_value_premium_percentage r =
    quotient (intrinsic_value_premium r) (market_cap r).
Proof.
  intros E; apply calculate_dcf_Ok in E.
  destruct E as (l & d & _ & _ & _ & _ & _ & _ & Hev & Heq & _ & _ & _ & Hp).
  apply truediv_Ok in Hp. destruct Hp as [Hz Hp]. auto.
Qed.

Lemma share_price_blind_intro (u : AssumptionSet num) (p1 p2 : num) :
  returns (calculate_dcf (with_share_price u p1)) ->
  is_zero (mul p2 (shares_outstanding u)) = false ->
  share_price_blind u p1 p2.
Proof.
  intros [r1 E1] Hmc.
  pose proof E1 as E.
  rewrite calculate_dcf_unfold in E. cbn [with_share_price tax_rate
    long_term_growth_rate wacc share_price shares_outstanding cash debt] in E.
  change (fcf_at (with_share_price u p1)) with (fcf_at u) in E.
  bind_inv E. bind_inv E. bind_inv E. bind_inv E. bind_inv E.
  cbv zeta in E. bind_inv E. bind_inv E.
  exists r1. eexists. split; [exact E1 |]. split.
  - rewrite calculate_dcf_unfold. cbn [with_share_price tax_rate
      long_term_growth_rate wacc share_price shares_outstanding cash debt].
    change (fcf_at (with_share_price u p2)) with (fcf_at u).
    rewrite E0; cbn [bind]. rewrite E2; cbn [bind]. rewrite E3; cbn [bind].
    rewrite E4; cbn [bind]. rewrite E5; cbn [bind]. rewrite E6; cbn [bind].
    unfold truediv at 1. rewrite Hmc. reflexivity.
  - inversion E; subst r1; clear E. repeat split.
Qed.

(** C9, amended. When the engine returns a result for one share price and
    the market capitalisation at another share price is not zero, it returns
    a result for the other share price too, with the same free cash flows,
    terminal value, present values, enterprise value, equity value and
    intrinsic value per share; and whenever it returns a result for each of
    two share prices, the two results agree on these fields. *)
Theorem share_price_enters_market_fields_only
    (u : AssumptionSet num) (p1 p2 : num) :
  (returns (calculate_dcf (with_share_price u p1)) ->
   is_zero (mul p2 (shares_outstanding u)) = false ->
   share_price_blind u p1 p2) /\
  (forall r1 r2,
     calculate_dcf (with_share_price u p1) = Ok r1 ->
     calculate_dcf (with_share_price u p2) = Ok r2 ->
     same_valuation r1 r2).
Proof.
  split; [apply share_price_blind_intro |].
  intros r1 r2 E1 E2.
  destruct (calculate_dcf_Ok _ _ E2)
    as (l & d & _ & _ & _ & _ & _ & _ & _ & _ & _ & Hmc & _ & Hp).
  apply truediv_Ok in Hp. destruct Hp as [Hz _]. rewrite Hmc in Hz.
  destruct (share_price_blind_intro u p1 p2) as (r1' & r2' & E1' & E2' & S).
  - exists r1; exact E1.
  - exact Hz.
  - rewrite E1 in E1'. rewrite E2 in E2'.
    inversion E1'; inversion E2'; subst. exact S.
Qed.

(** C10. Two inputs that agree on the scalars and on the first five
    elements of each projection get the same outcome from the engine, so no
    element after index 4 reaches any field; and a returned result has five
    free cash flows, the terminal value being built on the one at index 4. *)
Theorem only_first_five_periods_read (u u' : AssumptionSet num) :
  same_five_periods u u' ->
  calculate_dcf u = calculate_dcf u' /\
  forall r, calculate_dcf u = Ok r ->
    List.length (fcf r) = 5%nat /\ getitem_last (fcf r) = getitem (fcf r) 4.
Proof.
  intros (Ht & Hg & Hw & Hp & Hs & Hc & Hd & He & Hda & Hcx & Hn). split.
  - rewrite !calculate_dcf_unfold.
    assert (F : map_result (fcf_at u) (range 5)
                = map_result (fcf_at u') (range 5)).
    { apply map_result_ext. intros i Hi.
      assert (i < 5)%nat as Hlt by (apply in_seq in Hi; lia).
      unfold fcf_at.
      rewrite <- (getitem_firstn (ebit u) 5 i Hlt), He,
        (getitem_firstn (ebit u') 5 i Hlt).
      rewrite <- (getitem_firstn (da u) 5 i Hlt), Hda,
        (getitem_firstn (da u') 5 i Hlt).
      rewrite <- (getitem_firstn (capex u) 5 i Hlt), Hcx,
        (getitem_firstn (capex u') 5 i Hlt).
      rewrite <- (getitem_firstn (changes_in_nwc u) 5 i Hlt), Hn,
        (getitem_firstn (changes_in_nwc u') 5 i Hlt).
      rewrite Ht. reflexivity. }
    rewrite F, Hg, Hw, Hp, Hs, Hc, Hd. reflexivity.
  - intros r E. pose proof (fcf_has_five u r E) as L. split; [exact L |].
    destruct (fcf r) as [| a0 [| a1 [| a2 [| a3 [| a4 [| a5 t]]]]]];
      try discriminate. reflexivity.
Qed.

End Engine_claims.

(** ** The valuation engine in exact arithmetic *)

Lemma Qpower_zero_iff (x : Q) (k : Z) : (0 < k)%Z -> (x ^ k == 0 <-> x == 0).
Proof.
  intros Hk; split; intros E.
  - destruct (Qeq_dec x 0) as [Z0 | NZ]; [exact Z0 |].
    exfalso; exact (Qpower_not_0 x k NZ E).
  - rewrite E. apply Qpower_0; lia.
Qed.

Lemma Q_discount (w : Q) (k : Z) :
  (0 < k)%Z ->
  discount w k =
  if Qeq_bool (1 + w) 0 then Raise ZeroDivisionError
  else Ok (1 / (1 + w) ^ k).
Proof.
  intros Hk; unfold discount; cbn.
  destruct (Z.ltb_spec k 0) as [Hneg | _]; [lia |]. cbn.
  unfold truediv; cbn. change (inject_Z 1) with 1.
  destruct (Qeq_bool (1 + w) 0) eqn:B.
  - apply Qeq_bool_iff in B.
    rewrite (Qeq_eq_bool _ _ (proj2 (Qpower_zero_iff _ k Hk) B)).
    reflexivity.
  - destruct (Qeq_bool ((1 + w) ^ k) 0) eqn:B'; [| reflexivity].
    apply Qeq_bool_iff in B'. apply Qpower_zero_iff in B'; [| exact Hk].
    apply Qeq_eq_bool in B'. congruence.
Qed.

Lemma singular_b_iff (u : AssumptionSet Q) :
  singular_b u = true <-> singular u.
Proof.
  unfold singular_b, singular.
  rewrite !orb_true_iff, !Qeq_bool_iff.
  assert (wacc u - long_term_growth_rate u == 0
          <-> wacc u == long_term_growth_rate u) as ->.
  { split; intros E.
    - rewrite <- (Qplus_0_l (long_term_growth_rate u)), <- E. ring.
    - rewrite E. ring. }
  tauto.
Qed.

(** the loops return on inputs that have their five periods *)
Lemma fcf_loop_returns {num : Type} `{PyNumber num} (u : AssumptionSet num) :
  five_periods u -> returns (map_result (fcf_at u) (range 5)).
Proof.
  intros (He & Hd & Hc & Hn). apply map_result_total. intros i Hi.
  assert (i < 5)%nat as Hlt by (apply in_seq in Hi; lia).
  unfold fcf_at.
  destruct (getitem_in_range (ebit u) i) as [e ->]; [lia |].
  destruct (getitem_in_range (da u) i) as [d ->]; [lia |].
  destruct (getitem_in_range (capex u) i) as [c ->]; [lia |].
  destruct (getitem_in_range (changes_in_nwc u) i) as [n ->]; [lia |].
  cbn. eexists; reflexivity.
Qed.

Lemma pv_loop_Q (w : Q) (fcfs : list Q) :
  List.length fcfs = 5%nat ->
  if Qeq_bool (1 + w) 0
  then map_result (pv_at w fcfs) (range 5) = Raise ZeroDivisionError
  else returns (map_result (pv_at w fcfs) (range 5)).
Proof.
  intros L. destruct (Qeq_bool (1 + w) 0) eqn:B.
  - cbn [range seq map_result]. unfold pv_at at 1.
    rewrite Q_discount by reflexivity. rewrite B. reflexivity.
  - apply map_result_total. intros i Hi.
    assert (i < 5)%nat as Hlt by (apply in_seq in Hi; lia).
    unfold pv_at. rewrite Q_discount by lia. rewrite B. cbn [bind].
    destruct (getitem_in_range fcfs i) as [f ->]; [lia |].
    eexists; reflexivity.
Qed.

(** the outcome of the engine in exact arithmetic *)
Lemma calculate_dcf_Q_outcome (u : AssumptionSet Q) :
  five_periods u ->
  if singular_b u then calculate_dcf u = Raise ZeroDivisionError
  else returns (calculate_dcf u).
Proof.
  intros F. rewrite calculate_dcf_unfold. unfold singular_b.
  destruct (fcf_loop_returns u F) as [fcfs Ef]. rewrite Ef; cbn [bind].
  pose proof (map_result_length _ _ _ Ef) as L. cbn in L.
  destruct fcfs as [| a0 [| a1 [| a2 [| a3 [| a4 [| a5 t]]]]]];
    try discriminate.
  cbn [getitem_last rev app bind].
  unfold truediv. cbn [is_zero sub mul add of_int quotient Q_number].
  destruct (Qeq_bool (wacc u - long_term_growth_rate u) 0);
    [reflexivity |]. cbn [bind orb].
  pose proof (pv_loop_Q (wacc u) [a0; a1; a2; a3; a4] eq_refl) as P.
  rewrite (Q_discount (wacc u) 5) by reflexivity.
  destruct (Qeq_bool (1 + wacc u) 0).
  - rewrite P. reflexivity.
  - destruct P as [pvs ->]. cbn [bind orb]. cbv zeta.
    destruct (Qeq_bool (shares_outstanding u) 0); [reflexivity |].
    cbn [bind orb].
    destruct (Qeq_bool (share_price u * shares_outstanding u) 0);
      [reflexivity |].
    cbn [bind]. eexists; reflexivity.
Qed.

(** C1 fails as stated: with [wacc = -1], and none of the three listed
    singularities, the engine raises while dividing by [(1 + wacc) ** 1]. *)
Lemma unlisted_singularity_raises :
  calculate_dcf total_loss_inputs = Raise ZeroDivisionError /\
  ~ listed_singularity total_loss_inputs /\
  ~ (raises (calculate_dcf total_loss_inputs)
     <-> listed_singularity total_loss_inputs).
Proof.
  assert (R : calculate_dcf total_loss_inputs = Raise ZeroDivisionError)
    by (vm_compute; reflexivity).
  assert (N : ~ listed_singularity total_loss_inputs)
    by (intros [E | [E | E]]; vm_compute in E; discriminate).
  split; [exact R |]. split; [exact N |].
  intros [Hraise _]. apply N, Hraise. exists ZeroDivisionError; exact R.
Qed.

(** C1, amended. On inputs with their five periods and in exact arithmetic,
    the engine raises [ZeroDivisionError] exactly when [wacc] equals the
    growth rate, or [1 + wacc] is zero, or the share count is zero, or the
    market capitalisation is zero; it raises nothing else, and it returns a
    result exactly when none of these holds, never both. *)
Theorem domain_error_iff_singular (u : AssumptionSet Q) :
  five_periods u ->
  (calculate_dcf u = Raise ZeroDivisionError <-> singular u) /\
  (raises (calculate_dcf u) <-> singular u) /\
  (returns (calculate_dcf u) <-> ~ singular u).
Proof.
  intros F. pose proof (calculate_dcf_Q_outcome u F) as O.
  rewrite <- singular_b_iff.
  destruct (singular_b u).
  - rewrite O. repeat split; auto; try (intros _; eexists; reflexivity).
    + intros [r E]; discriminate.
    + intros N; exfalso; apply N; reflexivity.
  - destruct O as [r ->]. repeat split; try discriminate.
    + intros [e E]; discriminate.
    + intros _; eexists; reflexivity.
Qed.

Lemma domain_error_iff_singular_witness :
  five_periods reference_inputs /\
  returns (calculate_dcf reference_inputs) /\
  five_periods total_loss_inputs /\
  calculate_dcf total_loss_inputs = Raise ZeroDivisionError.
Proof.
  assert (F1 : five_periods reference_inputs) by (cbv; repeat split; lia).
  assert (F2 : five_periods total_loss_inputs) by (cbv; repeat split; lia).
  split; [exact F1 |]. split.
  - apply (proj2 (proj2 (domain_error_iff_singular reference_inputs F1))).
    intros [E | [E | [E | E]]]; vm_compute in E; discriminate.
  - split; [exact F2 |].
    apply (proj1 (domain_error_iff_singular total_loss_inputs F2)).
    right; left. reflexivity.
Defined.

(** C2. In a returned result, the free cash flow of each period [i] in
    [0..4] is [ebit[i] - ebit[i] * tax_rate + da[i] + capex[i] +
    changes_in_nwc[i]]: capital expenditure and the change in working capital
    are added with the sign they come with. *)
Theorem fcf_adds_signed_inputs
    (u : AssumptionSet Q) (r : ValuationResult Q) :
  calculate_dcf u = Ok r ->
  forall i, (i < 5)%nat ->
  exists e d c n f,
    nth_error (ebit u) i = Some e /\
    nth_error (da u) i = Some d /\
    nth_error (capex u) i = Some c /\
    nth_error (changes_in_nwc u) i = Some n /\
    nth_error (fcf r) i = Some f /\
    f == e - e * tax_rate u + d + c + n.
Proof.
  intros E i Hi. apply calculate_dcf_Ok in E.
  destruct E as (l & dft & Ef & _).
  destruct (map_result_nth _ _ _ Ef i i (range_nth 5 i Hi)) as (f & Hf & Hn).
  unfold fcf_at in Hf.
  bind_inv Hf. bind_inv Hf. bind_inv Hf. bind_inv Hf.
  apply getitem_some in E, E0, E1, E2.
  inversion Hf; subst f; clear Hf.
  exists a, a0, a1, a2. eexists.
  repeat (split; [eassumption |]).
  cbn. ring.
Qed.

Lemma fcf_adds_signed_inputs_witness :
  exists r,
    calculate_dcf reference_inputs = Ok r /\
    exists f, nth_error (fcf r) 0 = Some f /\
              f == 270 - 270 * (21 # 100) + 20 + -30 + (-28 # 10).
Proof.
  destruct (calculate_dcf reference_inputs) as [e | r] eqn:E;
    [vm_compute in E; discriminate |].
  exists r; split; [reflexivity |].
  destruct (fcf_adds_signed_inputs reference_inputs r E 0%nat)
    as (e & d & c & n & f & He & Hd & Hc & Hn & Hf & Heq); [lia |].
  exists f; split; [exact Hf |].
  cbn in He, Hd, Hc, Hn.
  inversion He; inversion Hd; inversion Hc; inversion Hn; subst.
  exact Heq.
Defined.

(** C4. Discounting is at the end of each period: in a returned result the
    present value of period [i] in [0..4] is [fcf[i] / (1 + wacc)^(i+1)], and
    the present terminal value is [terminal_value / (1 + wacc)^5]. *)
Theorem end_of_period_discounting
    (u : AssumptionSet Q) (r : ValuationResult Q) :
  calculate_dcf u = Ok r ->
  (forall i, (i < 5)%nat ->
     exists f p,
       nth_error (fcf r) i = Some f /\
       nth_error (present_values r) i = Some p /\
       p == f / (1 + wacc u) ^ (Z.of_nat i + 1)) /\
  present_terminal_value r == terminal_value r / (1 + wacc u) ^ 5.
Proof.
  intros E. apply calculate_dcf_Ok in E.
  destruct E as (l & dft & _ & _ & _ & Hpv & Hd & Hptv & _).
  rewrite Q_discount in Hd by reflexivity.
  destruct (Qeq_bool (1 + wacc u) 0) eqn:B; [discriminate |].
  inversion Hd; subst dft; clear Hd. split.
  - intros i Hi.
    destruct (map_result_nth _ _ _ Hpv i i (range_nth 5 i Hi))
      as (p & Hp & Hn).
    unfold pv_at in Hp. rewrite Q_discount in Hp by lia.
    rewrite B in Hp; cbn [bind] in Hp. bind_inv Hp.
    apply getitem_some in E. inversion Hp; subst p; clear Hp.
    exists a; eexists. split; [exact E |]. split; [exact Hn |].
    cbn. unfold Qdiv. ring.
  - rewrite Hptv. cbn. unfold Qdiv. ring.
Qed.

Lemma end_of_period_discounting_witness :
  exists r,
    calculate_dcf reference_inputs = Ok r /\
    exists f p,
      nth_error (fcf r) 0 = Some f /\
      nth_error (present_values r) 0 = Some p /\
      p == f / (1 + (8 # 100)) ^ 1.
Proof.
  destruct (calculate_dcf reference_inputs) as [e | r] eqn:E;
    [vm_compute in E; discriminate |].
  exists r; split; [reflexivity |].
  destruct (end_of_period_discounting reference_inputs r E) as [Hpv _].
  destruct (Hpv 0%nat) as (f & p & Hf & Hp & Heq); [lia |].
  exists f, p; auto.
Defined.

Lemma terminal_value_gordon_growth_witness :
  exists r fcf4,
    calculate_dcf reference_inputs = Ok r /\
    nth_error (fcf r) 4 = Some fcf4 /\
    terminal_value r = fcf4 * (1 + (3 # 100)) / ((8 # 100) - (3 # 100)).
Proof.
  destruct (calculate_dcf reference_inputs) as [e | r] eqn:E;
    [vm_compute in E; discriminate |].
  destruct (terminal_value_gordon_growth reference_inputs r E)
    as (f4 & Hf & _ & Htv).
  exists r, f4; auto.
Defined.

Lemma equity_bridge_exact_witness :
  exists r,
    calculate_dcf reference_inputs = Ok r /\
    enterprise_value r =
      fold_left Qplus (present_values r) 0 + present_terminal_value r /\
    equity_value r = enterprise_value r + (1242 # 10) - 500 /\
    intrinsic_value_premium_percentage r =
      intrinsic_value_premium r / market_cap r.
Proof.
  destruct (calculate_dcf reference_inputs) as [e | r] eqn:E;
    [vm_compute in E; discriminate |].
  destruct (equity_bridge_exact reference_inputs r E) as (H1 & H2 & _ & H4).
  exists r; auto.
Defined.

(** C9 fails as stated: the defaults have a share count that is not zero and
    a [wacc] other than the growth rate, yet at a share price of zero the
    engine raises and returns no valuation to compare. *)
Lemma zero_share_price_returns_nothing :
  ~ shares_outstanding reference_inputs == 0 /\
  ~ wacc reference_inputs == long_term_growth_rate reference_inputs /\
  returns (calculate_dcf (with_share_price reference_inputs 3)) /\
  calculate_dcf (with_share_price reference_inputs 0)
    = Raise ZeroDivisionError /\
  ~ share_price_blind reference_inputs 3 0.
Proof.
  split; [intros E; vm_compute in E; discriminate |].
  split; [intros E; vm_compute in E; discriminate |].
  split.
  - destruct (calculate_dcf (with_share_price reference_inputs 3))
      as [e | r] eqn:E; [vm_compute in E; discriminate |].
    exists r; reflexivity.
  - split; [vm_compute; reflexivity |].
    intros (r1 & r2 & _ & E2 & _). vm_compute in E2. discriminate.
Qed.

Lemma share_price_enters_market_fields_only_witness :
  share_price_blind reference_inputs 3 (7 # 2).
Proof.
  apply (proj1 (share_price_enters_market_fields_only reference_inputs
                  3 (7 # 2))).
  - destruct (calculate_dcf (with_share_price reference_inputs 3))
      as [e | r] eqn:E; [vm_compute in E; discriminate |].
    exists r; reflexivity.
  - reflexivity.
Defined.

Lemma only_first_five_periods_read_witness :
  same_five_periods long_inputs long_inputs' /\
  calculate_dcf long_inputs = calculate_dcf long_inputs' /\
  returns (calculate_dcf long_inputs).
Proof.
  assert (S : same_five_periods long_inputs long_inputs')
    by (repeat split; reflexivity).
  split; [exact S |]. split.
  - exact (proj1 (only_first_five_periods_read long_inputs long_inputs' S)).
  - destruct (calculate_dcf long_inputs) as [e | r] eqn:E;
      [vm_compute in E; discriminate |].
    exists r; reflexivity.
Defined.

(** ** The worksheet *)

Section Worksheet_claims.

Context {num : Type} `{PyNumber num}.

Lemma percentage_is_not_currency : percentage_format <> currency_format.
Proof. discriminate. Qed.

(** C6 on the code. On inputs and results of five periods, every number in
    the sheet has the currency format, the tax rate, the growth rate and the
    discount rate in C8, C9 and C10 included, and no cell has the percentage
    format: the references B5, B6 and B7 that [apply_formatting] gives the
    percentage format to hold a period label and two empty cells. *)
Theorem rates_get_currency_format
    (u : AssumptionSet num) (r : ValuationResult num) (company_name : string)
    (ws : Worksheet num) :
  List.length (ebit u) = 5%nat ->
  List.length (da u) = 5%nat ->
  List.length (capex u) = 5%nat ->
  List.length (changes_in_nwc u) = 5%nat ->
  List.length (fcf r) = 5%nat ->
  List.length (present_values r) = 5%nat ->
  generate_spreadsheet u r company_name = Ok ws ->
  numbers_formatted currency_format ws = true /\
  uses_format percentage_format ws = false /\
  map (value_and_format ws) ["C8"; "C9"; "C10"] =
    [ Some (VNum (tax_rate u), currency_format);
      Some (VNum (long_term_growth_rate u), currency_format);
      Some (VNum (wacc u), currency_format) ] /\
  map (value_and_format ws) ["B5"; "B6"; "B7"] =
    [ Some (VStr "Period 0", "General");
      Some (VNone, "General");
      Some (VNone, "General") ].
Proof.
  intros L1 L2 L3 L4 L5 L6 E.
  destruct u as [t g w p s ca de eb dp cx nw]; cbn in L1, L2, L3, L4.
  destruct r as [fc tv pv ptv ev eqv ivps mc prem pct]; cbn in L5, L6.
  unfold generate_spreadsheet in E.
  match type of E with
  | bind ?m _ = _ => destruct m as [e | dfs] eqn:D; [discriminate |]
  end.
  apply map_result_length in D; cbn in D.
  cbn [bind] in E. inversion E; subst ws; clear E.
  destruct eb as [| e0 [| e1 [| e2 [| e3 [| e4 [| e5 eb]]]]]];
    try discriminate.
  destruct dp as [| d0 [| d1 [| d2 [| d3 [| d4 [| d5 dp]]]]]];
    try discriminate.
  destruct cx as [| c0 [| c1 [| c2 [| c3 [| c4 [| c5 cx]]]]]];
    try discriminate.
  destruct nw as [| n0 [| n1 [| n2 [| n3 [| n4 [| n5 nw]]]]]];
    try discriminate.
  destruct fc as [| f0 [| f1 [| f2 [| f3 [| f4 [| f5 fc]]]]]];
    try discriminate.
  destruct pv as [| p0 [| p1 [| p2 [| p3 [| p4 [| p5 pv]]]]]];
    try discriminate.
  destruct dfs as [| k0 [| k1 [| k2 [| k3 [| k4 [| k5 dfs]]]]]];
    try discriminate.
  repeat split; vm_compute; reflexivity.
Qed.

(** C7 on the code. The sheet that [generate_spreadsheet] returns has no
    chart: [add_charts] is never called.  Were it called, its series would
    read row 13, columns F to J, which are empty, and its categories row 12,
    columns E to J, which are empty too; the free cash flows are in row 20,
    columns D to H, under the year counts of row 14. *)
Theorem spreadsheet_has_no_chart
    (u : AssumptionSet num) (r : ValuationResult num) (company_name : string)
    (ws : Worksheet num) :
  List.length (fcf r) = 5%nat ->
  generate_spreadsheet u r company_name = Ok ws ->
  charts ws = [] /\
  (exists chart series labels,
     charts (add_charts ws r) = [(chart, "A30")] /\
     data chart = Some (series, true) /\
     categories chart = Some labels /\
     values_in ws series = [[Some VNone; Some VNone; Some VNone; Some VNone;
                             Some VNone]] /\
     values_in ws labels = [[Some VNone; Some VNone; Some VNone; Some VNone;
                             Some VNone; Some VNone]]) /\
  values_in ws {| min_col := 4; min_row := 20; max_col := 8;
                  max_row_ref := 20 |}
    = [map (fun x => Some (VNum x)) (fcf r)] /\
  values_in ws {| min_col := 4; min_row := 14; max_col := 8;
                  max_row_ref := 14 |}
    = [[Some (VInt 1); Some (VInt 2); Some (VInt 3); Some (VInt 4);
        Some (VInt 5)]].
Proof.
  intros L5 E.
  destruct r as [fc tv pv ptv ev eqv ivps mc prem pct]; cbn in L5.
  unfold generate_spreadsheet in E.
  match type of E with
  | bind ?m _ = _ => destruct m as [e | dfs]; [discriminate |]
  end.
  cbn [bind] in E. inversion E; subst ws; clear E.
  destruct fc as [| f0 [| f1 [| f2 [| f3 [| f4 [| f5 fc]]]]]];
    try discriminate.
  split; [reflexivity |]. split.
  - do 3 eexists. split; [reflexivity |].
    split; [reflexivity |]. split; [reflexivity |].
    split; reflexivity.
  - split; reflexivity.
Qed.

End Worksheet_claims.

(** ** The document *)

Lemma append_assoc (a b c : string) :
  ((a ++ b) ++ c)%string = (a ++ (b ++ c))%string.
Proof.
  induction a as [| x a IH]; simpl; [reflexivity | rewrite IH; reflexivity].
Qed.

(** a percentage with one decimal is some text, a point, one digit and the
    percent sign *)
Lemma percent_one_decimal (x : Q) :
  exists whole k,
    (0 <= k < 10)%Z /\
    format_percent 1 x
      = (whole ++ "." ++ String (Decimal_text.digit k) "%")%string.
Proof.
  unfold format_percent. cbn [format_f Q_number].
  unfold Decimal_text.fixed. cbv zeta.
  set (m := Decimal_text.round_half_even _).
  set (sign := if (Qnum _ <? 0)%Z then _ else _).
  set (whole := Decimal_text.digits_of_Z _).
  exists (sign ++ whole)%string, ((m mod 10 ^ Z.of_nat 1) mod 10)%Z.
  split; [apply Z.mod_pos_bound; lia |].
  cbn [Decimal_text.digits_fixed app string_of_list_ascii].
  rewrite !append_assoc. reflexivity.
Qed.

(** C8 on the code. The document shows the three rates as text with one
    decimal and a percent sign, [21.0%] for a tax rate of 0.21; the sheet
    keeps the rates as numbers in C8, C9 and C10, and gives them the currency
    format, not the percentage format. *)
Theorem percent_text_in_document_number_in_sheet
    (u : AssumptionSet Q) (r : ValuationResult Q) (company_name : string)
    (ws : Worksheet Q) :
  generate_spreadsheet u r company_name = Ok ws ->
  In ["Tax Rate"; format_percent 1 (tax_rate u)]
    (table_rows (generate_pdf u r company_name)) /\
  In ["WACC"; format_percent 1 (wacc u)]
    (table_rows (generate_pdf u r company_name)) /\
  In ["Long Term Growth Rate"; format_percent 1 (long_term_growth_rate u)]
    (table_rows (generate_pdf u r company_name)) /\
  (forall x : Q,
     exists whole k,
       (0 <= k < 10)%Z /\
       format_percent 1 x
         = (whole ++ "." ++ String (Decimal_text.digit k) "%")%string) /\
  format_percent 1 (21 # 100) = "21.0%" /\
  map (value_and_format ws) ["C8"; "C9"; "C10"] =
    [ Some (VNum (tax_rate u), currency_format);
      Some (VNum (long_term_growth_rate u), currency_format);
      Some (VNum (wacc u), currency_format) ] /\
  currency_format <> percentage_format.
Proof.
  intros E.
  split; [cbn; auto |]. split; [cbn; auto |]. split; [cbn; auto 6 |].
  split; [exact percent_one_decimal |]. split; [reflexivity |].
  split; [| discriminate].
  unfold generate_spreadsheet in E.
  match type of E with
  | bind ?m _ = _ => destruct m as [e | dfs]; [discriminate |]
  end.
  cbn [bind] in E. inversion E; subst ws; clear E.
  reflexivity.
Qed.

Lemma present_values_has_five {num : Type} `{PyNumber num}
    (u : AssumptionSet num) (r : ValuationResult num) :
  calculate_dcf u = Ok r -> List.length (present_values r) = 5%nat.
Proof.
  intros E; apply calculate_dcf_Ok in E.
  destruct E as (l & d & _ & _ & _ & E & _).
  apply map_result_length in E; exact E.
Qed.

(** the engine and the sheet builder return on the defaults *)
Lemma reference_run :
  exists r ws,
    calculate_dcf reference_inputs = Ok r /\
    generate_spreadsheet reference_inputs r "Example Company" = Ok ws.
Proof.
  destruct (calculate_dcf reference_inputs) as [e | r] eqn:E;
    [vm_compute in E; discriminate |].
  exists r.
  destruct (generate_spreadsheet reference_inputs r "Example Company")
    as [e | ws] eqn:G; [vm_compute in G; discriminate |].
  exists ws; split; reflexivity.
Defined.

Lemma rates_get_currency_format_witness :
  exists r ws,
    calculate_dcf reference_inputs = Ok r /\
    generate_spreadsheet reference_inputs r "Example Company" = Ok ws /\
    numbers_formatted currency_format ws = true /\
    uses_format percentage_format ws = false /\
    map (value_and_format ws) ["C8"; "C9"; "C10"] =
      [ Some (VNum (21 # 100), currency_format);
        Some (VNum (3 # 100), currency_format);
        Some (VNum (8 # 100), currency_format) ].
Proof.
  destruct reference_run as (r & ws & E & G).
  exists r, ws. split; [exact E |]. split; [exact G |].
  destruct (rates_get_currency_format reference_inputs r "Example Company" ws)
    as (N & P & C & _);
    try reflexivity; try exact G.
  - exact (fcf_has_five reference_inputs r E).
  - exact (present_values_has_five reference_inputs r E).
  - auto.
Defined.

Lemma spreadsheet_has_no_chart_witness :
  exists r ws,
    calculate_dcf reference_inputs = Ok r /\
    generate_spreadsheet reference_inputs r "Example Company" = Ok ws /\
    charts ws = [] /\
    values_in ws {| min_col := 6; min_row := 13; max_col := 10;
                    max_row_ref := 13 |}
      = [[Some VNone; Some VNone; Some VNone; Some VNone; Some VNone]].
Proof.
  destruct reference_run as (r & ws & E & G).
  exists r, ws. split; [exact E |]. split; [exact G |].
  destruct (spreadsheet_has_no_chart reference_inputs r "Example Company" ws
              (fcf_has_five reference_inputs r E) G)
    as (C & (chart & series & labels & A & D & _ & V & _) & _).
  split; [exact C |].
  unfold add_charts, add_chart in A. cbn [charts] in A.
  rewrite C in A. cbn [app] in A.
  inversion A; subst chart; clear A.
  cbn [data] in D. inversion D; subst series; clear D.
  exact V.
Defined.

Lemma percent_text_in_document_number_in_sheet_witness :
  exists r ws,
    calculate_dcf reference_inputs = Ok r /\
    generate_spreadsheet reference_inputs r "Example Company" = Ok ws /\
    In ["Tax Rate"; "21.0%"]
      (table_rows (generate_pdf reference_inputs r "Example Company")) /\
    value_and_format ws "C8" = Some (VNum (21 # 100), currency_format).
Proof.
  destruct reference_run as (r & ws & E & G).
  exists r, ws. split; [exact E |]. split; [exact G |].
  destruct (percent_text_in_document_number_in_sheet reference_inputs r
              "Example Company" ws G)
    as (T & _ & _ & _ & _ & C & _).
  split; [exact T |].
  cbn [map] in C. inversion C. reflexivity.
Defined.

(** * Further properties *)

(** ** Projections that are too short *)

Lemma map_result_raises {A B : Type} (f : A -> result B) (xs : list A)
    (e : PyError) :
  (forall x, In x xs -> f x = Raise e \/ returns (f x)) ->
  (exists x, In x xs /\ f x = Raise e) ->
  map_result f xs = Raise e.
Proof.
  induction xs as [| x xs IH]; intros Hall (y & Hy & Ey); [destruct Hy |].
  cbn [map_result].
  destruct (Hall x (or_introl eq_refl)) as [Ex | [b Eb]];
    [rewrite Ex; reflexivity |].
  rewrite Eb; cbn [bind].
  destruct Hy as [-> | Hy]; [rewrite Ey in Eb; discriminate |].
  rewrite IH; [reflexivity | intros z Hz; apply Hall; right; exact Hz |].
  exists y; auto.
Qed.

Lemma getitem_outcome {A : Type} (xs : list A) (i : nat) :
  ((i < List.length xs)%nat /\ returns (getitem xs i)) \/
  ((List.length xs <= i)%nat /\ getitem xs i = Raise IndexError).
Proof.
  unfold getitem. destruct (nth_error xs i) eqn:E.
  - left. split; [| eexists; reflexivity].
    apply nth_error_Some; congruence.
  - right. split; [apply nth_error_None; exact E | reflexivity].
Qed.

Section Short_projections.

Context {num : Type} `{PyNumber num}.

Lemma fcf_at_outcome (u : AssumptionSet num) (i : nat) :
  ((i < List.length (ebit u) /\ i < List.length (da u) /\
    i < List.length (capex u) /\ i < List.length (changes_in_nwc u))%nat /\
   returns (fcf_at u i)) \/
  ((List.length (ebit u) <= i \/ List.length (da u) <= i \/
    List.length (capex u) <= i \/ List.length (changes_in_nwc u) <= i)%nat /\
   fcf_at u i = Raise IndexError).
Proof.
  unfold fcf_at.
  destruct (getitem_outcome (ebit u) i) as [[L1 [e ->]] | [L1 ->]];
    [| right; auto].
  destruct (getitem_outcome (da u) i) as [[L2 [d ->]] | [L2 ->]];
    [| right; auto].
  destruct (getitem_outcome (capex u) i) as [[L3 [c ->]] | [L3 ->]];
    [| right; auto].
  destruct (getitem_outcome (changes_in_nwc u) i) as [[L4 [n ->]] | [L4 ->]];
    [| right; auto 6].
  left. split; [auto |]. eexists; reflexivity.
Qed.

Lemma fcf_loop_IndexError (u : AssumptionSet num) :
  short_projection u ->
  map_result (fcf_at u) (range 5) = Raise IndexError.
Proof.
  intros S. apply map_result_raises.
  - intros i _. destruct (fcf_at_outcome u i) as [[_ R] | [_ E]]; auto.
  - exists 4%nat. split; [cbn; auto 6 |].
    destruct (fcf_at_outcome u 4) as [[L _] | [_ E]]; [| exact E].
    unfold short_projection in S. lia.
Qed.

(** X1. A projection with fewer than five elements makes the engine raise
    [IndexError], in the first loop and so before any division: the rates,
    the share count and the share price play no part. *)
Theorem short_projection_raises_IndexError (u : AssumptionSet num) :
  short_projection u -> calculate_dcf u = Raise IndexError.
Proof.
  intros S. rewrite calculate_dcf_unfold.
  rewrite (fcf_loop_IndexError u S). reflexivity.
Qed.

(** a returned result shows that every projection had its five periods *)
Lemma returns_five_periods (u : AssumptionSet num)
    (r : ValuationResult num) :
  calculate_dcf u = Ok r -> five_periods u.
Proof.
  intros E. rewrite calculate_dcf_unfold in E.
  assert (N : ~ short_projection u).
  { intros S. rewrite (fcf_loop_IndexError u S) in E. discriminate. }
  unfold short_projection in N. unfold five_periods. lia.
Qed.

End Short_projections.

Lemma short_projection_raises_IndexError_witness :
  short_projection short_inputs /\
  wacc short_inputs == long_term_growth_rate short_inputs /\
  shares_outstanding short_inputs == 0 /\
  calculate_dcf short_inputs = Raise IndexError.
Proof.
  assert (S : short_projection short_inputs) by (right; left; cbn; lia).
  split; [exact S |]. split; [reflexivity |]. split; [reflexivity |].
  exact (short_projection_raises_IndexError short_inputs S).
Defined.

(** ** The engine and the sheet together *)

Section Engine_and_sheet.

Context {num : Type} `{PyNumber num}.

(** the second loop computes the discount factors that the sheet shows *)
Lemma pv_loop_factors (w : num) (fcfs : list num) (idx : list nat)
    (pvs : list num) :
  map_result (pv_at w fcfs) idx = Ok pvs ->
  exists dfs,
    map_result (fun i => discount w (Z.of_nat i + 1)) idx = Ok dfs /\
    forall j i, nth_error idx j = Some i ->
      exists f df,
        nth_error dfs j = Some df /\
        nth_error fcfs i = Some f /\
        nth_error pvs j = Some (mul f df).
Proof.
  revert pvs; induction idx as [| i idx IH]; cbn [map_result]; intros pvs E.
  - exists []. split; [reflexivity |]. intros [| j] k Hk; discriminate.
  - bind_inv E. bind_inv E. inversion E; subst pvs; clear E.
    unfold pv_at in E0. bind_inv E0. bind_inv E0.
    inversion E0; subst a; clear E0.
    destruct (IH a0 E1) as (dfs & Hd & Hn).
    exists (a1 :: dfs). rewrite E, Hd. split; [reflexivity |].
    intros [| j] k Hk; cbn in Hk |- *.
    + inversion Hk; subst k. apply getitem_some in E2. eauto.
    + apply Hn; exact Hk.
Qed.



End Engine_and_sheet.




Section Sheet_adds_up.

Context {num : Type} `{PyNumber num}.

Ltac five_or_more l L :=
  destruct l as [| ? [| ? [| ? [| ? [| ? l]]]]];
  cbn [List.length] in L; try lia.

Ltac exactly_five l L :=
  destruct l as [| ? [| ? [| ? [| ? [| ? [| ? l]]]]]];
  cbn [List.length] in L; try discriminate.

(** the sheet of an engine result, with the lists that went into it *)
Lemma sheet_of_engine_result
    (u : AssumptionSet num) (r : ValuationResult num) (company_name : string)
    (ws : Worksheet num) :
  calculate_dcf u = Ok r ->
  generate_spreadsheet u r company_name = Ok ws ->
  exists dfs dft,
    List.length dfs = 5%nat /\
    map_result (fun i => discount (wacc u) (Z.of_nat i + 1)) (range 5)
      = Ok dfs /\
    nth_error dfs 4 = Some dft /\
    present_terminal_value r = mul (terminal_value r) dft /\
    (forall i, (i < 5)%nat ->
       exists f df,
         nth_error dfs i = Some df /\
         nth_error (fcf r) i = Some f /\
         nth_error (present_values r) i = Some (mul f df)).
Proof.
  intros E G. apply calculate_dcf_Ok in E.
  destruct E as (l & dft & _ & _ & _ & Hpv & Hd & Hptv & _).
  destruct (pv_loop_factors _ _ _ _ Hpv) as (dfs & Hdfs & Hn).
  exists dfs, dft.
  pose proof (map_result_length _ _ _ Hdfs) as L.
  split; [exact L |]. split; [exact Hdfs |]. split.
  - destruct (map_result_nth _ _ _ Hdfs 4%nat 4%nat eq_refl) as (y & Ey & Ny).
    cbn in Ey. rewrite Hd in Ey. inversion Ey; subst y. exact Ny.
  - split; [exact Hptv |].
    intros i Hi. apply (Hn i i). apply range_nth; exact Hi.
Qed.

(** X4. In the sheet of an engine result the cash-flow build adds up, period
    by period: the cell of the free cash flow is the sum of the cells above
    it (EBIT, tax on EBIT, depreciation, capital expenditure, change in
    working capital), the tax cell is the EBIT cell times the tax rate times
    minus one, and the present value is the free cash flow times the
    discount factor of its column. *)
Theorem sheet_cash_flow_build_adds_up
    (u : AssumptionSet num) (r : ValuationResult num) (company_name : string)
    (ws : Worksheet num) :
  calculate_dcf u = Ok r ->
  generate_spreadsheet u r company_name = Ok ws ->
  forall i, (i < 5)%nat ->
  exists e t d c n f df p,
    number_at ws 15 (4 + i) = Some e /\
    number_at ws 16 (4 + i) = Some t /\
    number_at ws 17 (4 + i) = Some d /\
    number_at ws 18 (4 + i) = Some c /\
    number_at ws 19 (4 + i) = Some n /\
    number_at ws 20 (4 + i) = Some f /\
    number_at ws 24 (4 + i) = Some df /\
    number_at ws 25 (4 + i) = Some p /\
    t = mul (mul e (tax_rate u)) (of_int (-1)) /\
    f = add (add (add (add e t) d) c) n /\
    p = mul f df.
Proof.
  intros E G i Hi.
  destruct (sheet_of_engine_result u r company_name ws E G)
    as (dfs & dft & Ld & Hdfs & _ & _ & Hn).
  pose proof (returns_five_periods u r E) as (L1 & L2 & L3 & L4).
  pose proof (fcf_has_five u r E) as L5.
  pose proof (present_values_has_five u r E) as L6.
  apply calculate_dcf_Ok in E. destruct E as (l & d0 & Ef & _).
  destruct u as [t g w p s ca de eb dp cx nw].
  destruct r as [fc tv pv ptv ev eqv ivps mc prem pct].
  cbn [ebit da capex changes_in_nwc fcf present_values wacc tax_rate] in *.
  unfold generate_spreadsheet in G.
  cbn [ebit da capex changes_in_nwc fcf present_values wacc tax_rate] in G.
  rewrite Hdfs in G. cbn [bind] in G. inversion G; subst ws; clear G.
  five_or_more eb L1. five_or_more dp L2. five_or_more cx L3.
  five_or_more nw L4. exactly_five fc L5. exactly_five pv L6.
  exactly_five dfs Ld.
  cbn in Ef. inversion Ef; subst; clear Ef.
  destruct (Hn 0%nat) as (f0 & k0 & D0 & F0 & P0); [lia |].
  destruct (Hn 1%nat) as (f1 & k1 & D1 & F1 & P1); [lia |].
  destruct (Hn 2%nat) as (f2 & k2 & D2 & F2 & P2); [lia |].
  destruct (Hn 3%nat) as (f3 & k3 & D3 & F3 & P3); [lia |].
  destruct (Hn 4%nat) as (f4 & k4 & D4 & F4 & P4); [lia |].
  cbn in D0, F0, P0, D1, F1, P1, D2, F2, P2, D3, F3, P3, D4, F4, P4.
  inversion D0; inversion F0; inversion P0; inversion D1; inversion F1;
    inversion P1; inversion D2; inversion F2; inversion P2; inversion D3;
    inversion F3; inversion P3; inversion D4; inversion F4; inversion P4;
    subst; clear D0 F0 P0 D1 F1 P1 D2 F2 P2 D3 F3 P3 D4 F4 P4 Hn.
  destruct i as [| [| [| [| [| i]]]]]; try lia;
    do 8 eexists; repeat split; reflexivity.
Qed.

(** X5. In the sheet of an engine result the summary adds up from cells of
    the sheet: the sum cell is the sum of the five present values of row 25,
    the present terminal value is the terminal value of H22 times the last
    discount factor, the enterprise value is the sum plus the present
    terminal value, the equity value adds cash and takes debt off, the market
    capitalisation is share price times share count, the premium is equity
    less market capitalisation, and the percentage is their quotient. *)
Theorem sheet_summary_adds_up
    (u : AssumptionSet num) (r : ValuationResult num) (company_name : string)
    (ws : Worksheet num) :
  calculate_dcf u = Ok r ->
  generate_spreadsheet u r company_name = Ok ws ->
  exists pvs tv df5 total ptv ev ca de eqv price shares mc prem pct,
    map (number_at ws 25) [4; 5; 6; 7; 8]%nat = map Some pvs /\
    number_at ws 22 8 = Some tv /\
    number_at ws 24 8 = Some df5 /\
    number_at ws 27 3 = Some total /\
    number_at ws 28 3 = Some ptv /\
    number_at ws 29 3 = Some ev /\
    number_at ws 31 3 = Some ca /\
    number_at ws 32 3 = Some de /\
    number_at ws 33 3 = Some eqv /\
    number_at ws 11 3 = Some price /\
    number_at ws 12 3 = Some shares /\
    number_at ws 35 3 = Some mc /\
    number_at ws 36 3 = Some prem /\
    number_at ws 37 3 = Some pct /\
    total = sum_of pvs /\
    ptv = mul tv df5 /\
    ev = add total ptv /\
    eqv = sub (add ev ca) de /\
    mc = mul price shares /\
    prem = sub eqv mc /\
    pct = quotient prem mc.
Proof.
  intros E G.
  destruct (sheet_of_engine_result u r company_name ws E G)
    as (dfs & dft & Ld & Hdfs & Hdft & Hptv & _).
  pose proof (present_values_has_five u r E) as L6.
  apply calculate_dcf_Ok in E.
  destruct E as (l & d0 & _ & _ & _ & _ & _ & _ & Hev & Heq & _ & Hmc
                 & Hprem & Hpct).
  apply truediv_Ok in Hpct. destruct Hpct as [_ Hpct].
  destruct u as [t g w p s ca de eb dp cx nw].
  destruct r as [fc tv pv ptv ev eqv ivps mc prem pct].
  cbn [present_values wacc cash debt share_price shares_outstanding
       terminal_value present_terminal_value enterprise_value equity_value
       market_cap intrinsic_value_premium
       intrinsic_value_premium_percentage] in *.
  unfold generate_spreadsheet in G.
  cbn [present_values wacc] in G.
  rewrite Hdfs in G. cbn [bind] in G. inversion G; subst ws; clear G.
  exactly_five pv L6. exactly_five dfs Ld.
  cbn in Hdft. inversion Hdft; subst dft; clear Hdft.
  eexists [_; _; _; _; _]. do 13 eexists.
  repeat (split; [reflexivity |]).
  repeat (split; [assumption |]). assumption.
Qed.

End Sheet_adds_up.

Lemma sheet_cash_flow_build_adds_up_witness :
  exists r ws,
    calculate_dcf reference_inputs = Ok r /\
    generate_spreadsheet reference_inputs r "Example Company" = Ok ws /\
    exists e t d c n f df p,
      number_at ws 15 4 = Some e /\ number_at ws 16 4 = Some t /\
      number_at ws 17 4 = Some d /\ number_at ws 18 4 = Some c /\
      number_at ws 19 4 = Some n /\ number_at ws 20 4 = Some f /\
      number_at ws 24 4 = Some df /\ number_at ws 25 4 = Some p /\
      t = e * (21 # 100) * inject_Z (-1) /\
      f = e + t + d + c + n /\
      p = f * df.
Proof.
  destruct reference_run as (r & ws & E & G).
  exists r, ws. split; [exact E |]. split; [exact G |].
  destruct (sheet_cash_flow_build_adds_up reference_inputs r
              "Example Company" ws E G 0%nat)
    as (e & t & d & c & n & f & df & p & H); [lia |].
  exists e, t, d, c, n, f, df, p. exact H.
Defined.

Lemma sheet_summary_adds_up_witness :
  exists r ws,
    calculate_dcf reference_inputs = Ok r /\
    generate_spreadsheet reference_inputs r "Example Company" = Ok ws /\
    exists total ptv ev,
      number_at ws 27 3 = Some total /\
      number_at ws 28 3 = Some ptv /\
      number_at ws 29 3 = Some ev /\
      ev = total + ptv.
Proof.
  destruct reference_run as (r & ws & E & G).
  exists r, ws. split; [exact E |]. split; [exact G |].
  destruct (sheet_summary_adds_up reference_inputs r "Example Company" ws E G)
    as (pvs & tv & df5 & total & ptv & ev & ca & de & eqv & price & shares
        & mc & prem & pct & _ & _ & _ & Ht & Hp & He & _ & _ & _ & _ & _ & _
        & _ & _ & _ & _ & Hev & _).
  exists total, ptv, ev. auto.
Defined.

Section Sheet_layout.

Context {num : Type} `{PyNumber num}.

(** X6. Whatever the inputs, a sheet that is returned has 37 rows, and its
    rows start with the same labels in columns A and B; only the company
    name in A1 varies. *)
Theorem sheet_layout_is_fixed
    (u : AssumptionSet num) (r : ValuationResult num) (company_name : string)
    (ws : Worksheet num) :
  generate_spreadsheet u r company_name = Ok ws ->
  title ws = "DCF Model" /\
  max_row ws = 37%nat /\
  row_labels ws = sheet_labels company_name.
Proof.
  unfold generate_spreadsheet. intros E.
  match type of E with
  | bind ?m _ = _ => destruct m as [e | dfs]; [discriminate |]
  end.
  cbn [bind] in E. inversion E; subst ws; clear E.
  split; [reflexivity |]. split; reflexivity.
Qed.

(** X7. The document and the sheet show the same numbers: each rate and
    each result that the document prints is the text of a number that the
    sheet holds, the rates in C8 to C10, the share price and count in C11
    and C12, and the results in C29, C33, C35, C36 and C37. *)
Theorem document_prints_sheet_numbers
    (u : AssumptionSet num) (r : ValuationResult num) (company_name : string)
    (ws : Worksheet num) :
  generate_spreadsheet u r company_name = Ok ws ->
  exists tax growth rate price shares ev eqv mc prem pct,
    number_at ws 8 3 = Some tax /\
    number_at ws 9 3 = Some growth /\
    number_at ws 10 3 = Some rate /\
    number_at ws 11 3 = Some price /\
    number_at ws 12 3 = Some shares /\
    number_at ws 29 3 = Some ev /\
    number_at ws 33 3 = Some eqv /\
    number_at ws 35 3 = Some mc /\
    number_at ws 36 3 = Some prem /\
    number_at ws 37 3 = Some pct /\
    table_rows (generate_pdf u r company_name) =
      [ ["Key Assumptions"; "Value"];
        ["Tax Rate"; format_percent 1 tax];
        ["WACC"; format_percent 1 rate];
        ["Long Term Growth Rate"; format_percent 1 growth];
        ["Share Price"; ("$" ++ format_f false 2 price)%string];
        ["Shares Outstanding"; format_f true 0 shares];
        ["DCF Results"; "Value"];
        ["Enterprise Value"; ("$" ++ format_f true 2 ev)%string];
        ["Equity Value"; ("$" ++ format_f true 2 eqv)%string];
        ["Intrinsic Value per Share";
         ("$" ++ format_f true 2 (intrinsic_value_per_share r))%string];
        ["Market Cap"; ("$" ++ format_f true 2 mc)%string];
        ["Intrinsic Value Premium"; ("$" ++ format_f true 2 prem)%string];
        ["Premium Percentage"; format_percent 1 pct] ].
Proof.
  unfold generate_spreadsheet. intros E.
  match type of E with
  | bind ?m _ = _ => destruct m as [e | dfs]; [discriminate |]
  end.
  cbn [bind] in E. inversion E; subst ws; clear E.
  do 10 eexists. repeat (split; [reflexivity |]). reflexivity.
Qed.

End Sheet_layout.

Lemma sheet_layout_is_fixed_witness :
  exists r ws,
    calculate_dcf reference_inputs = Ok r /\
    generate_spreadsheet reference_inputs r "Example Company" = Ok ws /\
    max_row ws = 37%nat /\
    nth_error (row_labels ws) 19 = Some (blank, VStr "Free cash flow").
Proof.
  destruct reference_run as (r & ws & E & G).
  exists r, ws. split; [exact E |]. split; [exact G |].
  destruct (sheet_layout_is_fixed reference_inputs r "Example Company" ws G)
    as (_ & M & L).
  split; [exact M |]. rewrite L. reflexivity.
Defined.

Lemma document_prints_sheet_numbers_witness :
  exists r ws,
    calculate_dcf reference_inputs = Ok r /\
    generate_spreadsheet reference_inputs r "Example Company" = Ok ws /\
    exists mc,
      number_at ws 35 3 = Some mc /\
      In ["Market Cap"; ("$" ++ format_f true 2 mc)%string]
        (table_rows (generate_pdf reference_inputs r "Example Company")).
Proof.
  destruct reference_run as (r & ws & E & G).
  exists r, ws. split; [exact E |]. split; [exact G |].
  destruct (document_prints_sheet_numbers reference_inputs r
              "Example Company" ws G)
    as (tax & growth & rate & price & shares & ev & eqv & mc & prem & pct
        & _ & _ & _ & _ & _ & _ & _ & Hmc & _ & _ & T).
  exists mc. split; [exact Hmc |].
  rewrite T. cbn. auto 12.
Defined.

(** ** The arithmetic of the engine, in exact arithmetic *)

Ltac at_least_five l L :=
  destruct l as [| ? [| ? [| ? [| ? [| ? l]]]]];
  cbn [List.length] in L; try lia.

Ltac just_five l L :=
  destruct l as [| ? [| ? [| ? [| ? [| ? [| ? l]]]]]];
  cbn [List.length] in L; try discriminate.

Lemma pv_loop_Q_values (w f0 f1 f2 f3 f4 : Q) (pvs : list Q) :
  map_result (pv_at w [f0; f1; f2; f3; f4]) (range 5) = Ok pvs ->
  ~ 1 + w == 0 /\
  pvs = [ f0 * (1 / (1 + w) ^ 1); f1 * (1 / (1 + w) ^ 2);
          f2 * (1 / (1 + w) ^ 3); f3 * (1 / (1 + w) ^ 4);
          f4 * (1 / (1 + w) ^ 5) ].
Proof.
  cbn [range seq map_result]. unfold pv_at.
  rewrite !Q_discount by (cbn; lia).
  destruct (Qeq_bool (1 + w) 0) eqn:B; [discriminate |].
  cbn. intros E; inversion E. split; [| reflexivity].
  apply Qeq_bool_neq; exact B.
Qed.

Lemma Forall_five {A : Type} (P : A -> Prop) (a0 a1 a2 a3 a4 : A)
    (l : list A) :
  Forall P (a0 :: a1 :: a2 :: a3 :: a4 :: l) ->
  P a0 /\ P a1 /\ P a2 /\ P a3 /\ P a4.
Proof.
  intros F. repeat (apply Forall_cons_iff in F; destruct F as [? F]). auto.
Qed.

(** X8. With no operating figures there is no enterprise value: when every
    entry of the four projections is zero, a returned result has zero free
    cash flows, a zero terminal value, zero present values and a zero
    enterprise value, and its equity value is cash less debt. *)
Theorem zero_projections_value_nothing
    (u : AssumptionSet Q) (r : ValuationResult Q) :
  calculate_dcf u = Ok r ->
  Forall (fun x => x == 0) (ebit u) ->
  Forall (fun x => x == 0) (da u) ->
  Forall (fun x => x == 0) (capex u) ->
  Forall (fun x => x == 0) (changes_in_nwc u) ->
  Forall (fun x => x == 0) (fcf r) /\
  terminal_value r == 0 /\
  Forall (fun x => x == 0) (present_values r) /\
  present_terminal_value r == 0 /\
  enterprise_value r == 0 /\
  equity_value r == cash u - debt u.
Proof.
  intros E Z1 Z2 Z3 Z4.
  pose proof (returns_five_periods u r E) as (L1 & L2 & L3 & L4).
  apply calculate_dcf_Ok in E.
  destruct E as (l & dft & Ef & Hl & Htv & Hpv & Hd & Hptv & Hev & Heq & _).
  destruct u as [t g w p s ca de eb dp cx nw].
  destruct r as [fc tv pv ptv ev eqv ivps mc prem pct].
  cbn [ebit da capex changes_in_nwc fcf present_values wacc tax_rate
       long_term_growth_rate cash debt terminal_value present_terminal_value
       enterprise_value equity_value] in *.
  destruct eb as [| e0 [| e1 [| e2 [| e3 [| e4 eb]]]]];
    cbn [List.length] in L1; try lia.
  destruct dp as [| d0 [| d1 [| d2 [| d3 [| d4 dp]]]]];
    cbn [List.length] in L2; try lia.
  destruct cx as [| c0 [| c1 [| c2 [| c3 [| c4 cx]]]]];
    cbn [List.length] in L3; try lia.
  destruct nw as [| n0 [| n1 [| n2 [| n3 [| n4 nw]]]]];
    cbn [List.length] in L4; try lia.
  apply Forall_five in Z1, Z2, Z3, Z4.
  destruct Z1 as (E0 & E1 & E2 & E3 & E4).
  destruct Z2 as (D0 & D1 & D2 & D3 & D4).
  destruct Z3 as (C0 & C1 & C2 & C3 & C4).
  destruct Z4 as (N0 & N1 & N2 & N3 & N4).
  cbn in Ef. inversion Ef; subst fc; clear Ef.
  cbn in Hl. inversion Hl; subst l; clear Hl.
  apply truediv_Ok in Htv. destruct Htv as [_ Htv]. cbn in Htv.
  apply pv_loop_Q_values in Hpv. destruct Hpv as [Hw Hpv].
  rewrite Q_discount in Hd by reflexivity.
  destruct (Qeq_bool (1 + w) 0); [discriminate |].
  inversion Hd; subst dft; clear Hd.
  cbn in Hptv, Hev, Heq.
  assert (F0 : e0 + e0 * t * inject_Z (-1) + d0 + c0 + n0 == 0)
    by (rewrite E0, D0, C0, N0; ring).
  assert (F1 : e1 + e1 * t * inject_Z (-1) + d1 + c1 + n1 == 0)
    by (rewrite E1, D1, C1, N1; ring).
  assert (F2 : e2 + e2 * t * inject_Z (-1) + d2 + c2 + n2 == 0)
    by (rewrite E2, D2, C2, N2; ring).
  assert (F3 : e3 + e3 * t * inject_Z (-1) + d3 + c3 + n3 == 0)
    by (rewrite E3, D3, C3, N3; ring).
  assert (F4 : e4 + e4 * t * inject_Z (-1) + d4 + c4 + n4 == 0)
    by (rewrite E4, D4, C4, N4; ring).
  assert (T : tv == 0) by (rewrite Htv; unfold Qdiv; rewrite F4; ring).
  assert (P : ptv == 0) by (rewrite Hptv, T; ring).
  assert (V : ev == 0).
  { rewrite Hev, Hpv, P. cbn. rewrite F0, F1, F2, F3, F4. ring. }
  split; [repeat constructor; assumption |].
  split; [exact T |]. split.
  - rewrite Hpv. repeat constructor;
      [rewrite F0 | rewrite F1 | rewrite F2 | rewrite F3 | rewrite F4]; ring.
  - split; [exact P |]. split; [exact V |].
    rewrite Heq, V. ring.
Qed.

Lemma zero_projections_value_nothing_witness :
  exists r,
    calculate_dcf idle_inputs = Ok r /\
    enterprise_value r == 0 /\
    equity_value r == (1242 # 10) - 500.
Proof.
  destruct (calculate_dcf idle_inputs) as [e | r] eqn:E;
    [vm_compute in E; discriminate |].
  exists r. split; [reflexivity |].
  destruct (zero_projections_value_nothing idle_inputs r E)
    as (_ & _ & _ & _ & V & Q0);
    try (cbn; repeat constructor; reflexivity).
  split; [exact V | exact Q0].
Defined.

Lemma returns_not_singular (u : AssumptionSet Q) (r : ValuationResult Q) :
  calculate_dcf u = Ok r -> singular_b u = false.
Proof.
  intros E. pose proof (returns_five_periods u r E) as F.
  pose proof (calculate_dcf_Q_outcome u F) as O.
  destruct (singular_b u); [rewrite O in E; discriminate | reflexivity].
Qed.

Lemma in_unit_not_singular (k : Q) (u : AssumptionSet Q) :
  ~ k == 0 -> singular_b u = false -> singular_b (in_unit k u) = false.
Proof.
  unfold singular_b; cbn [in_unit wacc long_term_growth_rate
    shares_outstanding share_price].
  intros K S. apply orb_false_iff in S. destruct S as [S S4].
  rewrite S; cbn [orb].
  destruct (Qeq_bool (k * share_price u * shares_outstanding u) 0) eqn:B;
    [| reflexivity].
  apply Qeq_bool_iff in B. apply Qeq_bool_neq in S4.
  exfalso. apply S4.
  assert (M : k * (share_price u * shares_outstanding u) == 0)
    by (rewrite <- B; ring).
  apply Qmult_integral in M. destruct M as [M | M]; [contradiction | exact M].
Qed.

(** X9. The valuation does not depend on the unit of money: with every
    amount (projections, cash, debt, share price) multiplied by a nonzero
    [k], the engine returns again, every amount of the result is multiplied
    by [k], and the premium percentage is unchanged. *)
Theorem valuation_scales_with_the_unit
    (k : Q) (u : AssumptionSet Q) (r : ValuationResult Q) :
  ~ k == 0 ->
  calculate_dcf u = Ok r ->
  exists r',
    calculate_dcf (in_unit k u) = Ok r' /\
    scaled k (fcf r) (fcf r') /\
    terminal_value r' == k * terminal_value r /\
    scaled k (present_values r) (present_values r') /\
    present_terminal_value r' == k * present_terminal_value r /\
    enterprise_value r' == k * enterprise_value r /\
    equity_value r' == k * equity_value r /\
    intrinsic_value_per_share r' == k * intrinsic_value_per_share r /\
    market_cap r' == k * market_cap r /\
    intrinsic_value_premium r' == k * intrinsic_value_premium r /\
    intrinsic_value_premium_percentage r'
      == intrinsic_value_premium_percentage r.
Proof.
  intros K E.
  pose proof (returns_five_periods u r E) as F.
  pose proof (in_unit_not_singular k u K (returns_not_singular u r E)) as S.
  assert (F' : five_periods (in_unit k u)).
  { destruct F as (L1 & L2 & L3 & L4).
    unfold five_periods; cbn [in_unit ebit da capex changes_in_nwc].
    rewrite !length_map. auto. }
  pose proof (calculate_dcf_Q_outcome (in_unit k u) F') as O.
  rewrite S in O. destruct O as [r' E'].
  exists r'. split; [exact E' |].
  destruct F as (L1 & L2 & L3 & L4).
  apply calculate_dcf_Ok in E.
  destruct E as (l & dft & Ef & Hl & Htv & Hpv & Hd & Hptv & Hev & Heq
                 & Hiv & Hmc & Hpr & Hpc).
  apply calculate_dcf_Ok in E'.
  destruct E' as (l' & dft' & Ef' & Hl' & Htv' & Hpv' & Hd' & Hptv' & Hev'
                  & Heq' & Hiv' & Hmc' & Hpr' & Hpc').
  destruct u as [t g w p s ca de eb dp cx nw].
  destruct r as [fc tv pv ptv ev eqv ivps mc prem pct].
  destruct r' as [fc' tv' pv' ptv' ev' eqv' ivps' mc' prem' pct'].
  cbn [in_unit ebit da capex changes_in_nwc fcf present_values wacc tax_rate
       long_term_growth_rate cash debt share_price shares_outstanding
       terminal_value present_terminal_value enterprise_value equity_value
       intrinsic_value_per_share market_cap intrinsic_value_premium
       intrinsic_value_premium_percentage] in *.
  destruct eb as [| e0 [| e1 [| e2 [| e3 [| e4 eb]]]]];
    cbn [List.length] in L1; try lia.
  destruct dp as [| d0 [| d1 [| d2 [| d3 [| d4 dp]]]]];
    cbn [List.length] in L2; try lia.
  destruct cx as [| c0 [| c1 [| c2 [| c3 [| c4 cx]]]]];
    cbn [List.length] in L3; try lia.
  destruct nw as [| n0 [| n1 [| n2 [| n3 [| n4 nw]]]]];
    cbn [List.length] in L4; try lia.
  cbn in Ef, Ef'. inversion Ef; subst fc; clear Ef.
  inversion Ef'; subst fc'; clear Ef'.
  cbn in Hl, Hl'. inversion Hl; subst l; clear Hl.
  inversion Hl'; subst l'; clear Hl'.
  apply truediv_Ok in Htv, Htv', Hiv, Hiv', Hpc, Hpc'.
  destruct Htv as [_ Htv]. destruct Htv' as [_ Htv'].
  destruct Hiv as [_ Hiv]. destruct Hiv' as [_ Hiv'].
  destruct Hpc as [Zmc Hpc]. destruct Hpc' as [_ Hpc'].
  apply pv_loop_Q_values in Hpv, Hpv'.
  destruct Hpv as [Hw Hpv]. destruct Hpv' as [_ Hpv'].
  rewrite Q_discount in Hd, Hd' by reflexivity.
  destruct (Qeq_bool (1 + w) 0); [discriminate |].
  inversion Hd; subst dft; clear Hd. inversion Hd'; subst dft'; clear Hd'.
  cbn in Htv, Htv', Hptv, Hptv', Hev, Hev', Heq, Heq', Hiv, Hiv', Hmc, Hmc',
    Hpr, Hpr', Hpc, Hpc', Zmc.
  apply Qeq_bool_neq in Zmc.
  assert (T : tv' == k * tv)
    by (rewrite Htv', Htv; unfold Qdiv; ring).
  assert (P : ptv' == k * ptv) by (rewrite Hptv', Hptv, T; ring).
  assert (V : ev' == k * ev).
  { rewrite Hev', Hev, Hpv', Hpv, P. cbn. unfold Qdiv. ring. }
  assert (Q0 : eqv' == k * eqv) by (rewrite Heq', Heq, V; ring).
  assert (M : mc' == k * mc) by (rewrite Hmc', Hmc; ring).
  assert (R : prem' == k * prem) by (rewrite Hpr', Hpr, Q0, M; ring).
  split; [repeat constructor; ring |].
  split; [exact T |].
  split; [rewrite Hpv', Hpv; repeat constructor; unfold Qdiv; ring |].
  split; [exact P |]. split; [exact V |]. split; [exact Q0 |].
  split; [rewrite Hiv', Hiv, Q0; unfold Qdiv; ring |].
  split; [exact M |]. split; [exact R |].
  rewrite Hpc', Hpc, R, M. field. split; assumption.
Qed.

Lemma valuation_scales_with_the_unit_witness :
  exists r r',
    calculate_dcf reference_inputs = Ok r /\
    calculate_dcf (in_unit 1000 reference_inputs) = Ok r' /\
    enterprise_value r' == 1000 * enterprise_value r /\
    intrinsic_value_premium_percentage r'
      == intrinsic_value_premium_percentage r.
Proof.
  destruct (calculate_dcf reference_inputs) as [e | r] eqn:E;
    [vm_compute in E; discriminate |].
  destruct (valuation_scales_with_the_unit 1000 reference_inputs r)
    as (r' & E' & _ & _ & _ & _ & V & _ & _ & _ & _ & P);
    [intros K; vm_compute in K; discriminate | exact E |].
  exists r, r'. auto.
Defined.

(** ** Updates of a worksheet, cell by cell *)

Lemma nth_pad {A : Type} (n i : nat) (d : A) (l : list A) :
  nth i (pad n d l) d = nth i l d.
Proof.
  unfold pad. destruct (Nat.lt_ge_cases i (List.length l)) as [L | L].
  - apply app_nth1; exact L.
  - rewrite app_nth2 by exact L. rewrite nth_repeat.
    symmetry; apply nth_overflow; exact L.
Qed.

Lemma length_pad {A : Type} (n : nat) (d : A) (l : list A) :
  List.length (pad n d l) = Nat.max n (List.length l).
Proof.
  unfold pad. rewrite length_app, repeat_length. lia.
Qed.

Lemma nth_map_from {A : Type} (g : nat -> A -> A) (l : list A) (k i : nat)
    (d : A) :
  nth i (map_from k g l) d =
  if Nat.ltb i (List.length l) then g (k + i)%nat (nth i l d) else d.
Proof.
  revert k i; induction l as [| x l IH]; intros k i; cbn [map_from].
  - destruct i; reflexivity.
  - destruct i as [| i]; cbn [nth List.length].
    + rewrite Nat.add_0_r. reflexivity.
    + rewrite IH. replace (S k + i)%nat with (k + S i)%nat by lia.
      reflexivity.
Qed.

Section Worksheet_updates.

Context {num : Type} `{PyNumber num}.

Lemma cell_at_nth (ws : Worksheet num) (r c : nat) :
  (1 <= r)%nat -> (1 <= c)%nat ->
  cell_at ws r c = nth (c - 1) (nth (r - 1) (rows ws) []) None.
Proof.
  intros Hr Hc. unfold cell_at.
  destruct (Nat.leb_spec 1 r); [| lia].
  destruct (Nat.leb_spec 1 c); [| lia]. cbn [andb].
  destruct (nth_error (rows ws) (r - 1)) as [row |] eqn:R.
  - rewrite (nth_error_nth _ _ [] R).
    destruct (nth_error row (c - 1)) as [cell |] eqn:C.
    + rewrite (nth_error_nth _ _ None C). reflexivity.
    + apply nth_error_None in C. rewrite nth_overflow by exact C.
      reflexivity.
  - apply nth_error_None in R. rewrite (nth_overflow _ []) by exact R.
    destruct (c - 1)%nat; reflexivity.
Qed.

(** a row after [iter_rows] went over its first [w] cells *)
Lemma nth_touched_row (f : Cell num -> Cell num) (w j : nat)
    (row : list (option (Cell num))) :
  nth j (map (on_cell f) (firstn w (pad w None row))
           ++ skipn w (pad w None row)) None =
  if Nat.ltb j w then on_cell f (nth j row None) else nth j row None.
Proof.
  assert (L : List.length (map (on_cell f) (firstn w (pad w None row))) = w).
  { rewrite length_map, length_firstn, length_pad. lia. }
  destruct (Nat.ltb_spec j w) as [J | J].
  - rewrite app_nth1 by (rewrite L; exact J).
    rewrite (nth_indep _ None (on_cell f None)) by (rewrite L; exact J).
    rewrite map_nth, nth_firstn.
    destruct (Nat.ltb_spec j w); [| lia]. rewrite nth_pad. reflexivity.
  - rewrite app_nth2 by (rewrite L; exact J). rewrite L.
    rewrite nth_skipn. replace (w + (j - w))%nat with j by lia.
    apply nth_pad.
Qed.

(** the cells after [update_rows]: the ones in the range are there, with
    [f] applied; the others are as before *)
Lemma cell_at_update_rows (lo hi w : nat) (f : Cell num -> Cell num)
    (ws : Worksheet num) (r c : nat) :
  (1 <= r)%nat -> (1 <= c)%nat ->
  cell_at (update_rows lo hi w f ws) r c =
  if Nat.leb lo r && Nat.leb r hi && Nat.leb c w
  then on_cell f (cell_at ws r c) else cell_at ws r c.
Proof.
  intros Hr Hc. rewrite !cell_at_nth by assumption.
  unfold update_rows; cbn [rows].
  set (rs := if Nat.leb lo hi then pad hi [] (rows ws) else rows ws).
  assert (R : nth (r - 1) rs [] = nth (r - 1) (rows ws) []).
  { unfold rs. destruct (Nat.leb lo hi); [apply nth_pad | reflexivity]. }
  rewrite nth_map_from. replace (1 + (r - 1))%nat with r by lia.
  destruct (Nat.ltb_spec (r - 1) (List.length rs)) as [L | L].
  - rewrite R.
    destruct (Nat.leb lo r && Nat.leb r hi); cbn [andb]; [| reflexivity].
    cbv zeta. rewrite nth_touched_row.
    destruct (Nat.ltb_spec (c - 1) w), (Nat.leb_spec c w);
      try lia; reflexivity.
  - destruct (Nat.leb_spec lo r) as [A | A]; cbn [andb];
      [| rewrite <- R, (nth_overflow rs) by exact L; reflexivity].
    destruct (Nat.leb_spec r hi) as [B | B]; cbn [andb];
      [| rewrite <- R, (nth_overflow rs) by exact L; reflexivity].
    exfalso. unfold rs in L.
    destruct (Nat.leb_spec lo hi); [| lia].
    rewrite length_pad in L. lia.
Qed.

(** a row after the cell of column [c0] was looked up and changed *)
Lemma nth_touched_cell (f : Cell num -> Cell num) (c0 j : nat)
    (row : list (option (Cell num))) :
  (1 <= c0)%nat ->
  nth j (firstn (c0 - 1) (pad c0 None row)
           ++ map (on_cell f) (firstn 1 (skipn (c0 - 1) (pad c0 None row)))
           ++ skipn c0 (pad c0 None row)) None =
  if Nat.eqb j (c0 - 1) then on_cell f (nth j row None) else nth j row None.
Proof.
  intros C0.
  set (p := pad c0 None row).
  assert (Lp : (c0 <= List.length p)%nat)
    by (unfold p; rewrite length_pad; lia).
  assert (L1 : List.length (firstn (c0 - 1) p) = (c0 - 1)%nat)
    by (rewrite length_firstn; lia).
  assert (L2 : List.length
                 (map (on_cell f) (firstn 1 (skipn (c0 - 1) p))) = 1%nat).
  { rewrite length_map, length_firstn, length_skipn. lia. }
  destruct (Nat.eqb_spec j (c0 - 1)) as [E | E].
  - rewrite app_nth2 by lia. rewrite L1, E, Nat.sub_diag.
    rewrite app_nth1 by lia.
    rewrite (nth_indep _ None (on_cell f None)) by lia.
    rewrite map_nth, nth_firstn. cbn [Nat.ltb Nat.leb].
    rewrite nth_skipn, Nat.add_0_r. unfold p. rewrite nth_pad. reflexivity.
  - destruct (Nat.lt_ge_cases j (c0 - 1)) as [J | J].
    + rewrite app_nth1 by lia. rewrite nth_firstn.
      destruct (Nat.ltb_spec j (c0 - 1)); [| lia]. apply nth_pad.
    + rewrite app_nth2 by lia. rewrite L1.
      rewrite app_nth2 by lia. rewrite L2.
      rewrite nth_skipn. replace (c0 + (j - (c0 - 1) - 1))%nat with j by lia.
      apply nth_pad.
Qed.

(** the cells after [update_cell]: the cell looked up is there, with [f]
    applied; the others are as before *)
Lemma cell_at_update_cell (r0 c0 : nat) (f : Cell num -> Cell num)
    (ws : Worksheet num) (r c : nat) :
  (1 <= r0)%nat -> (1 <= c0)%nat -> (1 <= r)%nat -> (1 <= c)%nat ->
  cell_at (update_cell r0 c0 f ws) r c =
  if Nat.eqb r r0 && Nat.eqb c c0
  then on_cell f (cell_at ws r c) else cell_at ws r c.
Proof.
  intros Hr0 Hc0 Hr Hc. rewrite !cell_at_nth by assumption.
  unfold update_cell; cbn [rows].
  rewrite nth_map_from. replace (1 + (r - 1))%nat with r by lia.
  rewrite nth_pad.
  destruct (Nat.ltb_spec (r - 1) (List.length (pad r0 [] (rows ws))))
    as [L | L].
  - destruct (Nat.eqb_spec r r0) as [E | E]; cbn [andb]; [| reflexivity].
    cbv zeta. rewrite nth_touched_cell by exact Hc0.
    destruct (Nat.eqb_spec (c - 1) (c0 - 1)), (Nat.eqb_spec c c0);
      try lia; reflexivity.
  - rewrite length_pad in L.
    destruct (Nat.eqb_spec r r0) as [E | E]; cbn [andb]; [lia |].
    rewrite (nth_overflow (rows ws)) by lia. reflexivity.
Qed.

End Worksheet_updates.

(** ** The last row of a worksheet *)

Section Last_row.

Context {num : Type} `{PyNumber num}.

Lemma row_filled_false (row : list (option (Cell num))) (i : nat) :
  row_filled row = false -> nth i row None = None.
Proof.
  intros F. destruct (Nat.lt_ge_cases i (List.length row)) as [L | L].
  - pose proof (existsb_nth is_some row None L F) as N.
    destruct (nth i row None); [discriminate | reflexivity].
  - apply nth_overflow; exact L.
Qed.

Lemma row_filled_true (row : list (option (Cell num))) :
  row_filled row = true -> exists i, nth i row None <> None.
Proof.
  intros F. apply existsb_exists in F. destruct F as (x & Hin & Hx).
  destruct (In_nth row x None Hin) as (i & _ & Hi).
  exists i. rewrite Hi. destruct x; [discriminate | discriminate].
Qed.

Lemma last_filled_spec (rs : list (list (option (Cell num)))) (r last : nat) :
  (last_filled rs r last = last /\
   forall j, (j < List.length rs)%nat -> row_filled (nth j rs []) = false) \/
  (exists j, (j < List.length rs)%nat /\
     last_filled rs r last = (r + j)%nat /\
     row_filled (nth j rs []) = true /\
     forall j', (j < j')%nat -> row_filled (nth j' rs []) = false).
Proof.
  revert r last; induction rs as [| row rs IH]; intros r last;
    cbn [last_filled].
  - left. split; [reflexivity |]. intros j Hj; cbn in Hj; lia.
  - fold (row_filled row).
    destruct (IH (S r) (if row_filled row then r else last))
      as [[E U] | (j & Lj & E & Fj & U)].
    + destruct (row_filled row) eqn:R.
      * right. exists 0%nat. cbn [List.length nth].
        split; [lia |]. split; [rewrite E; lia |]. split; [exact R |].
        intros [| j'] Hj'; [lia |]. cbn [nth].
        destruct (Nat.lt_ge_cases j' (List.length rs)) as [L | L];
          [apply U; exact L | rewrite nth_overflow by exact L; reflexivity].
      * left. split; [exact E |].
        intros [| j] Hj; cbn [nth]; [exact R |].
        apply U. cbn in Hj; lia.
    + right. exists (S j). cbn [List.length nth].
      split; [lia |]. split; [rewrite E; lia |]. split; [exact Fj |].
      intros [| j'] Hj'; [lia |]. cbn [nth]. apply U; lia.
Qed.

(** [max_row] is the last row that holds a cell, or 1 *)
Lemma max_row_is_last_row (ws : Worksheet num) : last_row_is ws (max_row ws).
Proof.
  unfold last_row_is, max_row.
  destruct (last_filled_spec (rows ws) 1 1)
    as [[E U] | (j & Lj & E & Fj & U)]; rewrite E.
  - split; [lia |]. split; [| left; reflexivity].
    intros r c Hr Hc. rewrite cell_at_nth by lia.
    apply row_filled_false.
    destruct (Nat.lt_ge_cases (r - 1) (List.length (rows ws))) as [L | L];
      [apply U; exact L | rewrite nth_overflow by exact L; reflexivity].
  - split; [lia |]. split.
    + intros r c Hr Hc. rewrite cell_at_nth by lia.
      apply row_filled_false. apply U. lia.
    + right. apply row_filled_true in Fj. destruct Fj as (i & Hi).
      exists (S i). split; [lia |]. rewrite cell_at_nth by lia.
      replace (1 + j - 1)%nat with j by lia.
      replace (S i - 1)%nat with i by lia. exact Hi.
Qed.

Lemma last_row_unique (ws : Worksheet num) (m m' : nat) :
  last_row_is ws m -> last_row_is ws m' -> m = m'.
Proof.
  intros (P1 & A1 & F1) (P2 & A2 & F2).
  destruct (Nat.lt_trichotomy m m') as [L | [E | L]]; [| exact E |].
  - destruct F2 as [-> | (c & Hc & N)]; [lia |].
    exfalso. apply N. apply A1; assumption.
  - destruct F1 as [-> | (c & Hc & N)]; [lia |].
    exfalso. apply N. apply A2; assumption.
Qed.

Lemma max_row_unique (ws : Worksheet num) (m : nat) :
  last_row_is ws m -> max_row ws = m.
Proof.
  intros L. exact (last_row_unique ws _ _ (max_row_is_last_row ws) L).
Qed.

Lemma on_cell_some (f : Cell num -> Cell num) (o : option (Cell num)) :
  on_cell f o <> None.
Proof. destruct o; discriminate. Qed.

(** the last row after [iter_rows] went from row [lo] to row [hi] *)
Lemma max_row_update_rows (lo hi w : nat) (f : Cell num -> Cell num)
    (ws : Worksheet num) :
  (1 <= lo)%nat -> (1 <= w)%nat ->
  max_row (update_rows lo hi w f ws) =
  if Nat.leb lo hi then Nat.max (max_row ws) hi else max_row ws.
Proof.
  intros Hlo Hw. apply max_row_unique.
  destruct (max_row_is_last_row ws) as (P & A & F).
  destruct (Nat.leb_spec lo hi) as [L | L].
  - split; [lia |]. split.
    + intros r c Hr Hc. rewrite cell_at_update_rows by lia.
      destruct (Nat.leb_spec r hi); [lia |].
      rewrite andb_false_r. cbn [andb]. apply A; lia.
    + right. destruct (Nat.le_gt_cases (max_row ws) hi) as [M | M].
      * exists 1%nat. split; [lia |]. rewrite cell_at_update_rows by lia.
        rewrite Nat.max_r by exact M.
        destruct (Nat.leb_spec lo hi); [| lia].
        rewrite Nat.leb_refl. destruct (Nat.leb_spec 1 w); [| lia].
        cbn [andb]. apply on_cell_some.
      * rewrite Nat.max_l by lia.
        destruct F as [E | (c & Hc & N)]; [lia |].
        exists c. split; [exact Hc |]. rewrite cell_at_update_rows by lia.
        destruct (_ && _ && _); [apply on_cell_some | exact N].
  - split; [exact P |]. split.
    + intros r c Hr Hc. rewrite cell_at_update_rows by lia.
      destruct (Nat.leb_spec lo r), (Nat.leb_spec r hi); cbn [andb];
        try lia; apply A; lia.
    + destruct F as [E | (c & Hc & N)]; [left; exact E |].
      right. exists c. split; [exact Hc |].
      rewrite cell_at_update_rows by lia.
      destruct (_ && _ && _); [apply on_cell_some | exact N].
Qed.

(** the last row after a cell was looked up *)
Lemma max_row_update_cell (r0 c0 : nat) (f : Cell num -> Cell num)
    (ws : Worksheet num) :
  (1 <= r0)%nat -> (1 <= c0)%nat ->
  max_row (update_cell r0 c0 f ws) = Nat.max (max_row ws) r0.
Proof.
  intros Hr0 Hc0. apply max_row_unique.
  destruct (max_row_is_last_row ws) as (P & A & F).
  split; [lia |]. split.
  - intros r c Hr Hc. rewrite cell_at_update_cell by lia.
    destruct (Nat.eqb_spec r r0); [lia |]. cbn [andb]. apply A; lia.
  - right. destruct (Nat.le_gt_cases (max_row ws) r0) as [M | M].
    + exists c0. split; [exact Hc0 |]. rewrite cell_at_update_cell by lia.
      rewrite Nat.max_r by exact M. rewrite !Nat.eqb_refl. cbn [andb].
      apply on_cell_some.
    + rewrite Nat.max_l by lia.
      destruct F as [E | (c & Hc & N)]; [lia |].
      exists c. split; [exact Hc |]. rewrite cell_at_update_cell by lia.
      destruct (_ && _); [apply on_cell_some | exact N].
Qed.

End Last_row.

(** ** [apply_formatting] on any worksheet *)

Section Formatting_any_sheet.

Context {num : Type} `{PyNumber num}.

Lemma apply_formatting_steps (ws : Worksheet num) :
  apply_formatting ws =
  let ws0 :=
    fold_left (fun ws col => set_width (get_column_letter col) 15 ws)
      (seq 1 12) ws in
  let ws1 := update_rows 1 4 12 header_step ws0 in
  let ws2 := update_rows 5 (max_row ws1) 12 currency_step ws1 in
  let ws3 :=
    update_cell 7 2 percentage_step
      (update_cell 6 2 percentage_step
         (update_cell 5 2 percentage_step ws2)) in
  update_rows 5 (max_row ws3) 12 border_step ws3.
Proof. reflexivity. Qed.

Lemma widths_keep_rows (ws : Worksheet num) :
  rows (fold_left (fun ws col => set_width (get_column_letter col) 15 ws)
          (seq 1 12) ws) = rows ws.
Proof. reflexivity. Qed.

(** the cell at a place after [apply_formatting], from the cell before *)
Lemma cell_at_apply_formatting (ws : Worksheet num) (r c : nat) :
  (1 <= r)%nat -> (1 <= c)%nat ->
  cell_at (apply_formatting ws) r c =
  let c0 := cell_at ws r c in
  let c1 :=
    if Nat.leb r 4 && Nat.leb c 12 then on_cell header_step c0 else c0 in
  let c2 :=
    if Nat.leb 5 r && Nat.leb r (Nat.max (max_row ws) 4) && Nat.leb c 12
    then on_cell currency_step c1 else c1 in
  let c3 :=
    if (Nat.eqb r 5 || Nat.eqb r 6 || Nat.eqb r 7) && Nat.eqb c 2
    then on_cell percentage_step c2 else c2 in
  if Nat.leb 5 r && Nat.leb r (Nat.max (max_row ws) 7) && Nat.leb c 12
  then on_cell border_step c3 else c3.
Proof.
  intros Hr Hc. rewrite apply_formatting_steps. cbv zeta.
  set (ws0 := fold_left _ _ ws).
  assert (C0 : forall r c, cell_at ws0 r c = cell_at ws r c)
    by (intros; unfold cell_at, ws0; rewrite widths_keep_rows; reflexivity).
  assert (M0 : max_row ws0 = max_row ws)
    by (unfold max_row, ws0; rewrite widths_keep_rows; reflexivity).
  set (ws1 := update_rows 1 4 12 header_step ws0).
  assert (M1 : max_row ws1 = Nat.max (max_row ws) 4).
  { unfold ws1. rewrite max_row_update_rows by lia. rewrite M0.
    reflexivity. }
  set (ws2 := update_rows 5 (max_row ws1) 12 currency_step ws1).
  assert (M2 : max_row ws2 = Nat.max (max_row ws) 4).
  { unfold ws2. rewrite max_row_update_rows by lia. rewrite M1.
    destruct (Nat.leb 5 _); lia. }
  rewrite cell_at_update_rows by assumption.
  rewrite !max_row_update_cell by lia. rewrite M2.
  replace (Nat.max (Nat.max (Nat.max (Nat.max (max_row ws) 4) 5) 6) 7)
    with (Nat.max (max_row ws) 7) by lia.
  rewrite !cell_at_update_cell by lia.
  unfold ws2. rewrite cell_at_update_rows by assumption. rewrite M1.
  unfold ws1. rewrite cell_at_update_rows by assumption. rewrite C0.
  destruct (Nat.leb_spec 1 r); [| lia]. cbn [andb].
  destruct (Nat.eqb_spec r 5), (Nat.eqb_spec r 6), (Nat.eqb_spec r 7),
    (Nat.eqb_spec c 2); try lia; cbn [andb orb]; reflexivity.
Qed.

Lemma held_on_cell (f : Cell num -> Cell num) (o : option (Cell num)) :
  (forall x, value (f x) = value x) -> held (on_cell f o) = held o.
Proof. intros V. destruct o; cbn; [apply V | rewrite V; reflexivity]. Qed.

Lemma currency_step_value (x : Cell num) : value (currency_step x) = value x.
Proof. unfold currency_step. destruct (is_number (value x)); reflexivity. Qed.

Lemma percentage_step_value (x : Cell num) :
  value (percentage_step x) = value x.
Proof.
  unfold percentage_step. destruct (is_number (value x)); reflexivity.
Qed.

(** X10. [apply_formatting] changes no value: at every place, the sheet
    holds after it what it held before, and the cells that it creates are
    empty. *)
Theorem formatting_keeps_values (ws : Worksheet num) (r c : nat) :
  value_at (apply_formatting ws) r c = value_at ws r c.
Proof.
  destruct (Nat.le_gt_cases 1 r) as [Hr | Hr];
    [| replace r with 0%nat by lia; reflexivity].
  destruct (Nat.le_gt_cases 1 c) as [Hc | Hc];
    [| replace c with 0%nat by lia; unfold value_at, cell_at;
       rewrite !andb_false_r; reflexivity].
  change (held (cell_at (apply_formatting ws) r c) = held (cell_at ws r c)).
  rewrite cell_at_apply_formatting by assumption. cbv zeta.
  repeat match goal with
         | |- context [if ?b then _ else _] => destruct b
         end;
    repeat first
      [ rewrite (held_on_cell border_step) by reflexivity
      | rewrite (held_on_cell percentage_step) by apply percentage_step_value
      | rewrite (held_on_cell currency_step) by apply currency_step_value
      | rewrite (held_on_cell header_step) by reflexivity ];
    reflexivity.
Qed.

End Formatting_any_sheet.

Section Formatting_styles.

Context {num : Type} `{PyNumber num}.

(** X11. Whatever the sheet, after [apply_formatting] each of the 48 cells
    of rows 1 to 4, columns A to L, is there with the header style (bold
    white font, solid blue fill, centred, a thin line below), holds what it
    held, and keeps its number format: a number in a header row does not get
    the currency format. *)
Theorem header_rows_get_header_style (ws : Worksheet num) (r c : nat) :
  (1 <= r <= 4)%nat -> (1 <= c <= 12)%nat ->
  exists cell,
    cell_at (apply_formatting ws) r c = Some cell /\
    font cell = Some {| bold := true; color := "FFFFFF" |} /\
    fill cell = Some {| start_color := "4F81BD"; end_color := "4F81BD";
                        fill_type := "solid" |} /\
    alignment cell = Some "center" /\
    border cell = {| left := None; right := None; top := None;
                     bottom := Some "thin" |} /\
    value cell = value_at ws r c /\
    number_format cell = format_of (cell_at ws r c).
Proof.
  intros Hr Hc. rewrite cell_at_apply_formatting by lia. cbv zeta.
  destruct (Nat.leb_spec r 4); [| lia].
  destruct (Nat.leb_spec c 12); [| lia].
  destruct (Nat.leb_spec 5 r); [lia |].
  destruct (Nat.eqb_spec r 5), (Nat.eqb_spec r 6), (Nat.eqb_spec r 7);
    try lia.
  cbn [andb orb]. unfold value_at.
  destruct (cell_at ws r c) as [c0 |]; cbn [on_cell];
    eexists; (split; [reflexivity |]); repeat split.
Qed.

(** X12. Whatever the sheet, a cell of rows 5 to [max_row], columns A to L,
    that holds a number ends with the percentage format if it is B5, B6 or
    B7 and with the currency format otherwise; a cell there that holds no
    number keeps its number format; each gets the thin border. *)
Theorem data_rows_number_formats
    (ws : Worksheet num) (r c : nat) (cell0 : Cell num) :
  (5 <= r <= max_row ws)%nat -> (1 <= c <= 12)%nat ->
  cell_at ws r c = Some cell0 ->
  exists cell,
    cell_at (apply_formatting ws) r c = Some cell /\
    value cell = value cell0 /\
    border cell = thin_border /\
    number_format cell =
      if is_number (value cell0) then
        if Nat.leb r 7 && Nat.eqb c 2 then percentage_format
        else currency_format
      else number_format cell0.
Proof.
  intros Hr Hc E. rewrite cell_at_apply_formatting by lia. cbv zeta.
  rewrite E.
  destruct (Nat.leb_spec r 4); [lia |].
  destruct (Nat.leb_spec 5 r); [| lia].
  destruct (Nat.leb_spec c 12); [| lia].
  destruct (Nat.leb_spec r (Nat.max (max_row ws) 4)); [| lia].
  destruct (Nat.leb_spec r (Nat.max (max_row ws) 7)); [| lia].
  cbn [andb on_cell].
  unfold currency_step.
  destruct (is_number (value cell0)) eqn:N.
  - destruct (Nat.leb_spec r 7), (Nat.eqb_spec r 5), (Nat.eqb_spec r 6),
      (Nat.eqb_spec r 7), (Nat.eqb_spec c 2); try lia;
      cbn [andb orb on_cell]; unfold percentage_step;
      cbn [set_number_format value]; try rewrite N;
      eexists; (split; [reflexivity |]); repeat split.
  - destruct ((Nat.eqb r 5 || Nat.eqb r 6 || Nat.eqb r 7) && Nat.eqb c 2);
      cbn [on_cell]; unfold percentage_step; try rewrite N;
      eexists; (split; [reflexivity |]); repeat split; reflexivity.
Qed.

(** X13. Whatever the sheet, [apply_formatting] leaves a full block of
    cells: the last row becomes the larger of the old last row and 7, and
    every cell of columns A to L down to that row is there, from row 5 on
    with the thin border, on an empty sheet too. *)
Theorem formatting_fills_the_block (ws : Worksheet num) :
  max_row (apply_formatting ws) = Nat.max (max_row ws) 7 /\
  forall r c,
    (1 <= r <= Nat.max (max_row ws) 7)%nat -> (1 <= c <= 12)%nat ->
    exists cell,
      cell_at (apply_formatting ws) r c = Some cell /\
      ((5 <= r)%nat -> border cell = thin_border).
Proof.
  assert (C : forall r c,
             (1 <= r <= Nat.max (max_row ws) 7)%nat -> (1 <= c <= 12)%nat ->
             exists cell,
               cell_at (apply_formatting ws) r c = Some cell /\
               ((5 <= r)%nat -> border cell = thin_border)).
  { intros r c Hr Hc. rewrite cell_at_apply_formatting by lia. cbv zeta.
    destruct (Nat.leb_spec c 12); [| lia].
    destruct (Nat.leb_spec r (Nat.max (max_row ws) 7)); [| lia].
    destruct (Nat.leb_spec 5 r) as [R5 | R5]; cbn [andb].
    - match goal with
      | |- context [on_cell border_step ?o] => destruct o
      end; cbn [on_cell]; eexists; split; reflexivity.
    - destruct (Nat.leb_spec r 4); [| lia]. cbn [andb].
      destruct (Nat.eqb_spec r 5), (Nat.eqb_spec r 6), (Nat.eqb_spec r 7);
        try lia. cbn [andb orb].
      destruct (cell_at ws r c); cbn [on_cell];
        eexists; (split; [reflexivity | intros; lia]). }
  split; [| exact C].
  apply max_row_unique. split; [lia |]. split.
  - intros r c Hr Hc. rewrite cell_at_apply_formatting by lia. cbv zeta.
    destruct (Nat.leb_spec r 4); [lia |].
    destruct (Nat.leb_spec r (Nat.max (max_row ws) 4)); [lia |].
    destruct (Nat.leb_spec r (Nat.max (max_row ws) 7)); [lia |].
    destruct (Nat.eqb_spec r 5), (Nat.eqb_spec r 6), (Nat.eqb_spec r 7);
      try lia.
    rewrite !andb_false_r. cbn [andb orb].
    destruct (max_row_is_last_row ws) as (_ & A & _). apply A; lia.
  - right. exists 1%nat. split; [lia |].
    destruct (C (Nat.max (max_row ws) 7) 1%nat) as (cell & E & _); [lia.. |].
    rewrite E. discriminate.
Qed.

(** X14. Whatever the sheet, [apply_formatting] leaves every cell to the
    right of column L as it was: such a cell gets no format and no border,
    and none is created there. *)
Theorem formatting_stops_at_column_L (ws : Worksheet num) (r c : nat) :
  (12 < c)%nat ->
  cell_at (apply_formatting ws) r c = cell_at ws r c.
Proof.
  intros Hc. destruct (Nat.le_gt_cases 1 r) as [Hr | Hr];
    [| replace r with 0%nat by lia; reflexivity].
  rewrite cell_at_apply_formatting by lia. cbv zeta.
  destruct (Nat.leb_spec c 12); [lia |].
  destruct (Nat.eqb_spec c 2); [lia |].
  rewrite !andb_false_r. reflexivity.
Qed.

End Formatting_styles.

Lemma header_rows_get_header_style_witness :
  exists cell,
    cell_at (apply_formatting rates_in_column_B) 1 1 = Some cell /\
    value cell = VStr "Model" /\
    font cell = Some {| bold := true; color := "FFFFFF" |} /\
    number_format cell = "General".
Proof.
  destruct (header_rows_get_header_style rates_in_column_B 1 1)
    as (cell & E & F & _ & _ & _ & V & N); [lia | lia |].
  exists cell. split; [exact E |]. split; [exact V |].
  split; [exact F | exact N].
Defined.

Lemma data_rows_number_formats_witness :
  (exists cell,
     cell_at (apply_formatting rates_in_column_B) 5 2 = Some cell /\
     value cell = VNum (21 # 100) /\
     number_format cell = percentage_format) /\
  (exists cell,
     cell_at (apply_formatting rates_in_column_B) 5 3 = Some cell /\
     value cell = VNum 5 /\
     number_format cell = currency_format).
Proof.
  split.
  - destruct (data_rows_number_formats rates_in_column_B 5 2
                (new_cell (VNum (21 # 100))))
      as (cell & E & V & _ & N); [cbn; lia | lia | reflexivity |].
    exists cell. auto.
  - destruct (data_rows_number_formats rates_in_column_B 5 3
                (new_cell (VNum 5)))
      as (cell & E & V & _ & N); [cbn; lia | lia | reflexivity |].
    exists cell. auto.
Defined.

Lemma formatting_stops_at_column_L_witness :
  cell_at (apply_formatting rates_in_column_B) 5 13
  = Some (new_cell (VNum 7)).
Proof.
  rewrite (formatting_stops_at_column_L rates_in_column_B 5 13); [| lia].
  reflexivity.
Defined.

(** ** Column widths *)

Lemma find_after_set (l : list (string * Z)) (k letter : string) (w : Z) :
  find (fun kv => String.eqb (fst kv) letter)
    (filter (fun kv => negb (String.eqb (fst kv) k)) l ++ [(k, w)]) =
  if String.eqb k letter then Some (k, w)
  else find (fun kv => String.eqb (fst kv) letter) l.
Proof.
  induction l as [| [k' w'] l IH]; cbn [filter app find fst].
  - destruct (String.eqb k letter); reflexivity.
  - destruct (String.eqb_spec k' k) as [E | E]; cbn [negb].
    + subst k'. rewrite IH.
      destruct (String.eqb k letter); reflexivity.
    + cbn [app find fst]. rewrite IH.
      destruct (String.eqb_spec k' letter) as [E' | E']; [| reflexivity].
      subst k'. destruct (String.eqb_spec k letter); [congruence |].
      reflexivity.
Qed.

Section Column_widths.

Context {num : Type} `{PyNumber num}.

Lemma width_of_set_width (ws : Worksheet num) (k letter : string) (w : Z) :
  width_of (set_width k w ws) letter =
  if String.eqb k letter then Some w else width_of ws letter.
Proof.
  unfold width_of, set_width; cbn [column_widths].
  rewrite find_after_set. destruct (String.eqb k letter); reflexivity.
Qed.

Lemma width_of_apply_formatting (ws : Worksheet num) (letter : string) :
  width_of (apply_formatting ws) letter =
  width_of
    (fold_left (fun ws col => set_width (get_column_letter col) 15 ws)
       (seq 1 12) ws) letter.
Proof. reflexivity. Qed.

(** X15. Whatever the sheet, after [apply_formatting] the columns A to L
    have the width 15, earlier widths of theirs being replaced, and every
    other column has the width it had, or none. *)
Theorem first_twelve_columns_get_width_15
    (ws : Worksheet num) (letter : string) :
  (In letter ["A"; "B"; "C"; "D"; "E"; "F"; "G"; "H"; "I"; "J"; "K"; "L"] ->
   width_of (apply_formatting ws) letter = Some 15%Z) /\
  (~ In letter ["A"; "B"; "C"; "D"; "E"; "F"; "G"; "H"; "I"; "J"; "K"; "L"] ->
   width_of (apply_formatting ws) letter = width_of ws letter).
Proof.
  rewrite width_of_apply_formatting. cbn [seq fold_left].
  rewrite !width_of_set_width.
  change (get_column_letter 1) with "A".
  change (get_column_letter 2) with "B".
  change (get_column_letter 3) with "C".
  change (get_column_letter 4) with "D".
  change (get_column_letter 5) with "E".
  change (get_column_letter 6) with "F".
  change (get_column_letter 7) with "G".
  change (get_column_letter 8) with "H".
  change (get_column_letter 9) with "I".
  change (get_column_letter 10) with "J".
  change (get_column_letter 11) with "K".
  change (get_column_letter 12) with "L".
  split.
  - intros I. cbn [In] in I.
    repeat (destruct I as [<- | I]; [reflexivity |]). destruct I.
  - intros N. cbn [In] in N.
    repeat match goal with
           | |- context [String.eqb ?k letter] =>
               destruct (String.eqb_spec k letter); [exfalso; tauto |]
           end.
    reflexivity.
Qed.

End Column_widths.

(** ** The page *)

Section Page_properties.

Context {num : Type} `{PyNumber num}.

Variable ge_zero : num -> bool.
Variable str_of_error : PyError -> string.


End Page_properties.

Lemma occurs_append (a : ascii) (s t : string) :
  occurs a (s ++ t)%string = occurs a s || occurs a t.
Proof.
  induction s as [| b s IH]; cbn [String.append occurs]; [reflexivity |].
  rewrite IH. apply orb_assoc.
Qed.

Lemma replace_spaces_no_space (s : string) :
  occurs " " (replace_spaces s) = false.
Proof.
  induction s as [| a s IH]; cbn [replace_spaces occurs]; [reflexivity |].
  rewrite IH, orb_false_r.
  destruct (Ascii.eqb_spec a " ") as [E | E]; [reflexivity |].
  apply Ascii.eqb_neq. congruence.
Qed.

Section Download_names.

Context {num : Type} `{PyNumber num}.

Variable ge_zero : num -> bool.
Variable str_of_error : PyError -> string.

(** X17. The names of the downloaded files have no space, whatever the
    company name: [replace] turns every space into an underscore, changes
    nothing else, keeps the length, and leaves a name without a space as it
    is. *)
Theorem download_names_have_no_space
    (u : AssumptionSet num) (company_name : string) :
  Forall (fun name => occurs " " name = false)
    (download_names (calculate_pressed ge_zero str_of_error u company_name))
  /\
  occurs " " (replace_spaces company_name) = false /\
  String.length (replace_spaces company_name) = String.length company_name /\
  (forall i a, String.get i company_name = Some a ->
     String.get i (replace_spaces company_name)
     = Some (if Ascii.eqb a " " then "_"%char else a)) /\
  (occurs " " company_name = false ->
   replace_spaces company_name = company_name).
Proof.
  split; [| split; [apply replace_spaces_no_space |]].
  - unfold calculate_pressed.
    destruct (calculate_dcf u) as [e | r]; [constructor |].
    destruct (generate_spreadsheet u r company_name) as [e | ws];
      [constructor |].
    cbn [download_names flat_map app].
    repeat constructor;
      rewrite !occurs_append, replace_spaces_no_space; reflexivity.
  - split; [| split].
    + induction company_name as [| a s IH]; cbn; [reflexivity |].
      rewrite IH; reflexivity.
    + induction company_name as [| b s IH]; intros i a G;
        [destruct i; discriminate |].
      destruct i as [| i]; cbn [String.get replace_spaces] in G |- *.
      * inversion G; reflexivity.
      * apply IH; exact G.
    + induction company_name as [| a s IH]; cbn [occurs replace_spaces];
        intros O; [reflexivity |].
      apply orb_false_iff in O. destruct O as [Oa Os].
      rewrite IH by exact Os.
      rewrite Ascii.eqb_sym in Oa. rewrite Oa. reflexivity.
Qed.

End Download_names.
